(** * HTTP request tracing probes (src/observability/ebpf/trace_http.c)

    A shallow embedding of the eBPF program that correlates the
    "request start" and "request end" uprobes through two BPF hash maps and
    hands completed [http_event] records to a perf event array.

    The probes are modelled as state transformers over the three maps the
    program declares.  The kernel helpers they call live outside the
    repository; each one is given the behaviour its kernel documentation
    states, next to the call it serves. *)

From Stdlib Require Import ZArith Lia String Ascii.
From stdpp Require Import base option list gmap fin_maps.

Local Open Scope Z_scope.

(** ** Machine integers

    [__u16], [__u32] and [__u64] are unsigned and wrap around. *)

Definition u16 (x : Z) : Z := x mod 2 ^ 16.
Definition u32 (x : Z) : Z := x mod 2 ^ 32.
Definition u64 (x : Z) : Z := x mod 2 ^ 64.

(** ** Constants of the source *)

Definition TRACEPARENT_LEN : nat := 55.
Definition MAX_PATH_LEN : nat := 128.
Definition MAX_METHOD_LEN : nat := 16.

(** Error numbers returned (negated) by the helpers. *)
Definition ENOENT : Z := 2.
Definition E2BIG : Z := 7.
Definition EFAULT : Z := 14.

(** ** Records of the source *)

(** [struct http_event]; the three [char] arrays are byte lists. *)
Record http_event := mk_http_event {
  timestamp_ns : Z;
  pid : Z;
  tid : Z;
  method : list Z;
  path : list Z;
  traceparent : list Z;
  status_code : Z;
  duration_ns : Z;
  content_length : Z
}.

(** [struct trace_context]. *)
Record trace_context := mk_trace_context {
  trace_id : list Z;
  span_id : list Z;
  flags : Z
}.

(** An object initialised with [= {}] has every byte zero. *)
Definition zeroed (n : nat) : list Z := replicate n 0.

Definition http_event_zero : http_event :=
  {| timestamp_ns := 0; pid := 0; tid := 0;
     method := zeroed MAX_METHOD_LEN;
     path := zeroed MAX_PATH_LEN;
     traceparent := zeroed TRACEPARENT_LEN;
     status_code := 0; duration_ns := 0; content_length := 0 |}.

Definition trace_context_zero : trace_context :=
  {| trace_id := zeroed 16; span_id := zeroed 8; flags := 0 |}.

(** Field assignments [event.f = v]. *)
Definition set_timestamp_ns (v : Z) (e : http_event) : http_event :=
  mk_http_event v (pid e) (tid e) (method e) (path e) (traceparent e)
                (status_code e) (duration_ns e) (content_length e).
Definition set_pid (v : Z) (e : http_event) : http_event :=
  mk_http_event (timestamp_ns e) v (tid e) (method e) (path e) (traceparent e)
                (status_code e) (duration_ns e) (content_length e).
Definition set_tid (v : Z) (e : http_event) : http_event :=
  mk_http_event (timestamp_ns e) (pid e) v (method e) (path e) (traceparent e)
                (status_code e) (duration_ns e) (content_length e).
Definition set_method (v : list Z) (e : http_event) : http_event :=
  mk_http_event (timestamp_ns e) (pid e) (tid e) v (path e) (traceparent e)
                (status_code e) (duration_ns e) (content_length e).
Definition set_path (v : list Z) (e : http_event) : http_event :=
  mk_http_event (timestamp_ns e) (pid e) (tid e) (method e) v (traceparent e)
                (status_code e) (duration_ns e) (content_length e).
Definition set_traceparent (v : list Z) (e : http_event) : http_event :=
  mk_http_event (timestamp_ns e) (pid e) (tid e) (method e) (path e) v
                (status_code e) (duration_ns e) (content_length e).
Definition set_status_code (v : Z) (e : http_event) : http_event :=
  mk_http_event (timestamp_ns e) (pid e) (tid e) (method e) (path e)
                (traceparent e) v (duration_ns e) (content_length e).
Definition set_duration_ns (v : Z) (e : http_event) : http_event :=
  mk_http_event (timestamp_ns e) (pid e) (tid e) (method e) (path e)
                (traceparent e) (status_code e) v (content_length e).
Definition set_content_length (v : Z) (e : http_event) : http_event :=
  mk_http_event (timestamp_ns e) (pid e) (tid e) (method e) (path e)
                (traceparent e) (status_code e) (duration_ns e) v.

Definition set_trace_id (v : list Z) (c : trace_context) : trace_context :=
  mk_trace_context v (span_id c) (flags c).
Definition set_span_id (v : list Z) (c : trace_context) : trace_context :=
  mk_trace_context (trace_id c) v (flags c).

(** ** Memory and the string-reading helpers *)

(** A memory gives the byte at an address, or [None] where the access
    faults. *)
Definition memory := Z -> option Z.

(** The bytes of a C object seen as a memory whose address 0 is the
    object's first byte; an address outside the object has no byte. *)
Definition object_memory (obj : list Z) : memory :=
  fun a => if decide (0 <= a) then obj !! Z.to_nat a else None.

Module Helper.

(** The copy loop of [strncpy_from_user_nofault] and
    [strncpy_from_kernel_nofault]: bytes are loaded from [src] one after
    the other until a NUL has been copied or [count] bytes have been;
    a fault on any load makes the whole copy fail. *)
Fixpoint strncpy_nofault (m : memory) (src : Z) (count : nat)
  : option (list Z) :=
  match count with
  | O => Some []
  | S n =>
      match m src with
      | None => None
      | Some c =>
          if decide (c = 0) then Some [0]
          else cons c <$> strncpy_nofault m (src + 1) n
      end
  end.

(** The addresses that loop loads from, in order. *)
Fixpoint strncpy_touched (m : memory) (src : Z) (count : nat) : list Z :=
  match count with
  | O => []
  | S n =>
      src :: match m src with
             | None => []
             | Some c =>
                 if decide (c = 0) then []
                 else strncpy_touched m (src + 1) n
             end
  end.

(** After the loop the last byte written is forced to NUL. *)
Definition nul_terminate (bs : list Z) : list Z :=
  match bs with
  | [] => []
  | _ => take (length bs - 1)%nat bs ++ [0]
  end.

(** [bpf_probe_read_user_str(dst, size, src)] and
    [bpf_probe_read_kernel_str(dst, size, src)]: store the NUL-terminated
    string at [src] into the first bytes of [dst], at most [size] bytes
    with the terminator; the bytes of [dst] after the terminator keep
    their value.  On a fault the [size] bytes of [dst] are zeroed and
    [-EFAULT] is returned.  The result is the new [dst] and the return
    value (the length stored, terminator included). *)
Definition bpf_probe_read_str (m : memory) (dst : list Z) (size : nat)
           (src : Z) : list Z * Z :=
  match strncpy_nofault m src size with
  | Some bs =>
      (nul_terminate bs ++ drop (length bs) dst, Z.of_nat (length bs))
  | None => (zeroed size ++ drop size dst, - EFAULT)
  end.

(** [bpf_probe_read_kernel(dst, 4, src)] into a [__u32]: four bytes, least
    significant first (the [pt_regs] of vmlinux.h is the x86-64 one);
    on a fault the destination is zeroed. *)
Definition bpf_probe_read_kernel_u32 (m : memory) (src : Z) : Z * Z :=
  match m src, m (src + 1), m (src + 2), m (src + 3) with
  | Some b0, Some b1, Some b2, Some b3 =>
      (u32 (b0 + 2 ^ 8 * b1 + 2 ^ 16 * b2 + 2 ^ 24 * b3), 0)
  | _, _, _, _ => (0, - EFAULT)
  end.

End Helper.

(** ** Program state and the probe monad *)

(** The three maps of the program: the perf event array (the records handed
    to user space, oldest first) and the two hash maps keyed by the
    [__u64] of [bpf_get_current_pid_tgid]. *)
Record bpf_state := mk_bpf_state {
  http_events : list http_event;
  active_requests : gmap Z http_event;
  trace_contexts : gmap Z trace_context
}.

Definition bpf_state_empty : bpf_state :=
  {| http_events := []; active_requests := ∅; trace_contexts := ∅ |}.

(** A probe body is a state transformer returning a value. *)
Definition prog (A : Type) : Type := bpf_state -> A * bpf_state.

#[global] Instance prog_ret : MRet prog := fun A x st => (x, st).
#[global] Instance prog_bind : MBind prog :=
  fun A B f p st => let '(x, st') := p st in f x st'.

Definition gets {A} (f : bpf_state -> A) : prog A := fun st => (f st, st).
Definition modify (f : bpf_state -> bpf_state) : prog unit :=
  fun st => (tt, f st).

Definition exec {A} (p : prog A) (st : bpf_state) : bpf_state := (p st).2.
Definition eval {A} (p : prog A) (st : bpf_state) : A := (p st).1.

(** ** BPF hash maps *)

(** A declared [BPF_MAP_TYPE_HASH]: where it lives in the state and its
    [max_entries]. *)
Record hash_map (V : Type) := mk_hash_map {
  contents : bpf_state -> gmap Z V;
  with_contents : gmap Z V -> bpf_state -> bpf_state;
  max_entries : Z
}.
Arguments contents {V}.
Arguments with_contents {V}.
Arguments max_entries {V}.

Definition active_requests_map : hash_map http_event :=
  {| contents := active_requests;
     with_contents := fun m st =>
       mk_bpf_state (http_events st) m (trace_contexts st);
     max_entries := 10240 |}.

Definition trace_contexts_map : hash_map trace_context :=
  {| contents := trace_contexts;
     with_contents := fun m st =>
       mk_bpf_state (http_events st) (active_requests st) m;
     max_entries := 10240 |}.

(** [bpf_map_update_elem(map, key, value, BPF_ANY)] on a hash map: the value
    of an existing key is replaced; a new key is added while the map holds
    fewer than [max_entries] elements, and otherwise the call changes
    nothing and returns [-E2BIG]. *)
Definition bpf_map_update_elem {V} (map : hash_map V) (key : Z) (value : V)
  : prog Z :=
  fun st =>
    let m := contents map st in
    match m !! key with
    | Some _ => (0, with_contents map (<[key := value]> m) st)
    | None =>
        if decide (Z.of_nat (size m) < max_entries map)
        then (0, with_contents map (<[key := value]> m) st)
        else (- E2BIG, st)
    end.

(** [bpf_map_lookup_elem(map, key)]: the stored value, or NULL. *)
Definition bpf_map_lookup_elem {V} (map : hash_map V) (key : Z)
  : prog (option V) :=
  gets (fun st => contents map st !! key).

(** [bpf_map_delete_elem(map, key)]: removes the key; [-ENOENT] when it was
    not there. *)
Definition bpf_map_delete_elem {V} (map : hash_map V) (key : Z) : prog Z :=
  fun st =>
    let m := contents map st in
    match m !! key with
    | Some _ => (0, with_contents map (delete key m) st)
    | None => (- ENOENT, st)
    end.

(** A store through the pointer [bpf_map_lookup_elem] returned: the value
    held by the map for [key] is overwritten in place. *)
Definition store_elem {V} (map : hash_map V) (key : Z) (value : V)
  : prog unit :=
  modify (fun st => with_contents map (<[key := value]> (contents map st)) st).

(** [bpf_perf_event_output(ctx, &http_events, BPF_F_CURRENT_CPU, data,
    size)]: the record is handed to the perf event array.  [http_events]
    lists every record handed over; what the reader in user space then
    receives or loses is outside the program. *)
Definition bpf_perf_event_output (data : http_event) : prog Z :=
  fun st =>
    (0, mk_bpf_state (http_events st ++ [data]) (active_requests st)
                     (trace_contexts st)).

(** ** What a probe sees when it fires *)

(** The registers of [struct pt_regs] the program reads: the first three
    integer arguments of the probed function ([PT_REGS_PARM1..3] are
    [di], [si], [dx] on x86-64). *)
Record pt_regs := mk_pt_regs { di : Z; si : Z; dx : Z }.

Definition PT_REGS_PARM1 (ctx : pt_regs) : Z := di ctx.
Definition PT_REGS_PARM2 (ctx : pt_regs) : Z := si ctx.
Definition PT_REGS_PARM3 (ctx : pt_regs) : Z := dx ctx.

(** One firing of a probe: the register file, what
    [bpf_get_current_pid_tgid] and [bpf_ktime_get_ns] return at that
    moment, and the user and kernel memory the helpers read. *)
Record firing := mk_firing {
  regs : pt_regs;
  current_pid_tgid : Z;
  ktime_ns : Z;
  user_memory : memory;
  kernel_memory : memory
}.

(** ** The program *)

(** [parse_traceparent].  [header] is [None] for a NULL pointer and
    otherwise the object it points to; [header + k] is address [k] of that
    object.  Returns the status and the context written through [ctx]. *)
Definition parse_traceparent (header : option (list Z))
           (ctx : option trace_context) : Z * option trace_context :=
  match header, ctx with
  | Some hdr, Some c =>
      let c := set_trace_id
                 (Helper.bpf_probe_read_str (object_memory hdr)
                    (trace_id c) 16 3).1 c in
      let c := set_span_id
                 (Helper.bpf_probe_read_str (object_memory hdr)
                    (span_id c) 8 36).1 c in
      (0, Some c)
  | _, _ => (-1, ctx)
  end.

(** The addresses of the header object [parse_traceparent] loads from. *)
Definition parse_traceparent_touched (hdr : list Z) : list Z :=
  Helper.strncpy_touched (object_memory hdr) 3 16
  ++ Helper.strncpy_touched (object_memory hdr) 36 8.

(** [trace_http_request_start]. *)
Definition trace_http_request_start (f : firing) : prog Z :=
  let id := current_pid_tgid f in
  let ts := ktime_ns f in
  let event := http_event_zero in
  let event := set_timestamp_ns ts event in
  let event := set_pid (u32 (Z.shiftr id 32)) event in
  let event := set_tid (u32 (Z.land id 0xFFFFFFFF)) event in
  let method_ptr := PT_REGS_PARM1 (regs f) in
  let event := set_method
                 (Helper.bpf_probe_read_str (user_memory f) (method event)
                    MAX_METHOD_LEN method_ptr).1 event in
  let path_ptr := PT_REGS_PARM2 (regs f) in
  let event := set_path
                 (Helper.bpf_probe_read_str (user_memory f) (path event)
                    MAX_PATH_LEN path_ptr).1 event in
  let traceparent_ptr := PT_REGS_PARM3 (regs f) in
  event ←
    (if decide (traceparent_ptr ≠ 0) then
       let event := set_traceparent
                      (Helper.bpf_probe_read_str (user_memory f)
                         (traceparent event) TRACEPARENT_LEN
                         traceparent_ptr).1 event in
       let trace_ctx := trace_context_zero in
       let trace_ctx :=
         default trace_ctx
           (parse_traceparent (Some (traceparent event)) (Some trace_ctx)).2 in
       _ ← bpf_map_update_elem trace_contexts_map id trace_ctx;
       mret event
     else mret event);
  _ ← bpf_map_update_elem active_requests_map id event;
  mret 0.

(** [trace_http_request_end]. *)
Definition trace_http_request_end (f : firing) : prog Z :=
  let id := current_pid_tgid f in
  let ts := ktime_ns f in
  event ← bpf_map_lookup_elem active_requests_map id;
  match event with
  | None => mret 0
  | Some event =>
      let event := set_duration_ns (u64 (ts - timestamp_ns event)) event in
      let event := set_status_code (u16 (PT_REGS_PARM1 (regs f))) event in
      let content_len_ptr := PT_REGS_PARM2 (regs f) in
      let event :=
        if decide (content_len_ptr ≠ 0) then
          set_content_length
            (Helper.bpf_probe_read_kernel_u32 (kernel_memory f)
               content_len_ptr).1 event
        else event in
      store_elem active_requests_map id event;;
      _ ← bpf_perf_event_output event;
      _ ← bpf_map_delete_elem active_requests_map id;
      _ ← bpf_map_delete_elem trace_contexts_map id;
      mret 0
  end.

(** [trace_function_entry]. *)
Definition trace_function_entry (f : firing) : prog Z :=
  let id := current_pid_tgid f in
  let ts := ktime_ns f in
  let event := http_event_zero in
  let event := set_timestamp_ns ts event in
  let event := set_pid (u32 (Z.shiftr id 32)) event in
  let event := set_tid (u32 (Z.land id 0xFFFFFFFF)) event in
  _ ← bpf_map_update_elem active_requests_map id event;
  mret 0.

(** [trace_function_exit]. *)
Definition trace_function_exit (f : firing) : prog Z :=
  let id := current_pid_tgid f in
  let ts := ktime_ns f in
  event ← bpf_map_lookup_elem active_requests_map id;
  match event with
  | None => mret 0
  | Some event =>
      let event := set_duration_ns (u64 (ts - timestamp_ns event)) event in
      store_elem active_requests_map id event;;
      _ ← bpf_perf_event_output event;
      _ ← bpf_map_delete_elem active_requests_map id;
      mret 0
  end.

(** [trace_tcp_sendmsg]: the context is looked up and left where it is. *)
Definition trace_tcp_sendmsg (f : firing) : prog Z :=
  let id := current_pid_tgid f in
  trace_ctx ← bpf_map_lookup_elem trace_contexts_map id;
  match trace_ctx with
  | Some _ => mret 0
  | None => mret 0
  end.

(** [trace_tcp_recvmsg]. *)
Definition trace_tcp_recvmsg (f : firing) : prog Z := mret 0.

(** ** Runs of the program *)

(** The probes, as the [SEC] sections name them. *)
Inductive probe :=
| http_handler_start
| http_handler_end
| function_entry
| function_exit
| tcp_sendmsg
| tcp_recvmsg.

Definition handler (p : probe) : firing -> prog Z :=
  match p with
  | http_handler_start => trace_http_request_start
  | http_handler_end => trace_http_request_end
  | function_entry => trace_function_entry
  | function_exit => trace_function_exit
  | tcp_sendmsg => trace_tcp_sendmsg
  | tcp_recvmsg => trace_tcp_recvmsg
  end.

(** A run is the list of probe firings in the order they happen. *)
Fixpoint run (calls : list (probe * firing)) (st : bpf_state) : bpf_state :=
  match calls with
  | [] => st
  | (p, f) :: rest => run rest (exec (handler p f) st)
  end.

(** ** Building concrete firings *)

Fixpoint bytes_of (s : string) : list Z :=
  match s with
  | EmptyString => []
  | String a s' => Z.of_N (N_of_ascii a) :: bytes_of s'
  end.

(** The memory [m] with the bytes [bs] placed from address [base] on. *)
Definition place (base : Z) (bs : list Z) (m : memory) : memory :=
  fun a =>
    if decide (base <= a < base + Z.of_nat (length bs))
    then bs !! Z.to_nat (a - base)
    else m a.

Definition no_memory : memory := fun _ => None.

(** A NUL-terminated copy of [s] at [base]. *)
Definition place_str (base : Z) (s : string) (m : memory) : memory :=
  place base (bytes_of s ++ [0]) m.

(** The string [s] is readable at [p] in [m], NUL-terminated. *)
Fixpoint cstring_at (m : memory) (p : Z) (s : list Z) : Prop :=
  match s with
  | [] => m p = Some 0
  | c :: s' => c ≠ 0 ∧ m p = Some c ∧ cstring_at m (p + 1) s'
  end.

(** What a [size]-byte zeroed buffer holds once the C string [s] has been
    read into it: the first [size - 1] bytes of [s], NULs after. *)
Definition c_buffer (size : nat) (s : list Z) : list Z :=
  take (size - 1) s ++ zeroed (size - length (take (size - 1) s)).

Arguments zeroed : simpl never.
Arguments c_buffer : simpl never.
Arguments u16 : simpl never.
Arguments u32 : simpl never.
Arguments u64 : simpl never.

(** ** The records the probes build

    Names for the values met in the statements below; [start_exec] and
    [end_exec_hit] show that they are what the probes store and emit. *)

(** The record [trace_http_request_start] builds on its stack before it
    touches the maps, and the context it parses out of it. *)
Definition start_event (f : firing) : http_event :=
  let id := current_pid_tgid f in
  let um := user_memory f in
  let event := set_timestamp_ns (ktime_ns f) http_event_zero in
  let event := set_pid (u32 (Z.shiftr id 32)) event in
  let event := set_tid (u32 (Z.land id 0xFFFFFFFF)) event in
  let event := set_method
                 (Helper.bpf_probe_read_str um (zeroed MAX_METHOD_LEN)
                    MAX_METHOD_LEN (di (regs f))).1 event in
  let event := set_path
                 (Helper.bpf_probe_read_str um (zeroed MAX_PATH_LEN)
                    MAX_PATH_LEN (si (regs f))).1 event in
  if decide (dx (regs f) ≠ 0) then
    set_traceparent
      (Helper.bpf_probe_read_str um (zeroed TRACEPARENT_LEN)
         TRACEPARENT_LEN (dx (regs f))).1 event
  else event.

Definition start_context (f : firing) : trace_context :=
  default trace_context_zero
    (parse_traceparent (Some (traceparent (start_event f)))
       (Some trace_context_zero)).2.

(** The record [trace_http_request_end] emits for the pending [event]. *)
Definition end_event (f : firing) (event : http_event) : http_event :=
  let event := set_duration_ns (u64 (ktime_ns f - timestamp_ns event)) event in
  let event := set_status_code (u16 (di (regs f))) event in
  if decide (si (regs f) ≠ 0) then
    set_content_length
      (Helper.bpf_probe_read_kernel_u32 (kernel_memory f) (si (regs f))).1
      event
  else event.

(** The state just before [trace_http_request_start] stores the event. *)
Definition after_context_update (f : firing) (st : bpf_state) : bpf_state :=
  if decide (dx (regs f) ≠ 0)
  then exec (bpf_map_update_elem trace_contexts_map (current_pid_tgid f)
               (start_context f)) st
  else st.

(** The firing [f] at another time. *)
Definition at_time (t : Z) (f : firing) : firing :=
  mk_firing (regs f) (current_pid_tgid f) t (user_memory f)
            (kernel_memory f).

(** Address [a] lies inside the object [obj]. *)
Definition in_bounds (obj : list Z) (a : Z) : Prop :=
  0 <= a < Z.of_nat (length obj).

(** ** The claims about counters, as stated *)

(** C7 as stated, for a counter [drops] kept anywhere in the program
    state. *)
Definition orphaned_end_claim (drops : bpf_state → Z) (f : firing)
           (st : bpf_state) : Prop :=
  let id := current_pid_tgid f in
  let st' := exec (trace_http_request_end f) st in
  http_events st' = http_events st
  ∧ (∀ k, k ≠ id →
          active_requests st' !! k = active_requests st !! k
          ∧ trace_contexts st' !! k = trace_contexts st !! k)
  ∧ drops st' = drops st + 1.

(** C9 as stated, for a counter [rejects] kept anywhere in the program
    state. *)
Definition rejected_insert_claim (rejects : bpf_state → Z) (f : firing)
           (st : bpf_state) : Prop :=
  let id := current_pid_tgid f in
  let st' := exec (trace_http_request_start f) st in
  (∀ k e, active_requests st !! k = Some e →
          active_requests st' !! k = Some e)
  ∧ active_requests st' !! id = None
  ∧ rejects st' = rejects st + 1.

(** ** Concrete firings and states *)

Definition example_header : string :=
  "00-4bf92f3577b34da6a3ce929d0e0e4736-00f067aa0ba902b7-01".

Definition example_user_memory : memory :=
  place_str 1000 "GET"
    (place_str 2000 "/v1/status"
       (place_str 3000 example_header
          (place_str 4000 "" (place_str 5000 "00-abc-def-01" no_memory)))).

(** The start of the specification's example: id [0x1000000A], time 100,
    "GET", "/v1/status" and the example header. *)
Definition example_start : firing :=
  mk_firing (mk_pt_regs 1000 2000 3000) 0x1000000A 100
            example_user_memory no_memory.

(** Its end: time 250, status 200, content length 512 read from kernel
    address 7000. *)
Definition example_end : firing :=
  mk_firing (mk_pt_regs 200 7000 0) 0x1000000A 250 no_memory
            (place 7000 [0; 2; 0; 0] no_memory).

(** A start with a header shorter than its buffer. *)
Definition short_header_start : firing :=
  mk_firing (mk_pt_regs 1000 2000 5000) 0x1000000A 100
            example_user_memory no_memory.

(** A start whose header pointer is not NULL and points to an empty
    string. *)
Definition empty_header_start : firing :=
  mk_firing (mk_pt_regs 1000 2000 4000) 0x1000000A 100
            example_user_memory no_memory.

(** A start with a NULL header pointer. *)
Definition null_header_start : firing :=
  mk_firing (mk_pt_regs 1000 2000 0) 0x1000000A 100
            example_user_memory no_memory.

(** A later start for the same id with other arguments. *)
Definition second_start : firing :=
  mk_firing (mk_pt_regs 2000 1000 5000) 0x1000000A 180
            example_user_memory no_memory.

(** A later start for the example's id with another method, path and
    well-formed header. *)
Definition later_user_memory : memory :=
  place_str 1000 "POST"
    (place_str 2000 "/v1/sessions"
       (place_str 3000
          "00-0af7651916cd43dd8448eb211c80319c-b7ad6b7169203331-01"
          no_memory)).

Definition later_start : firing :=
  mk_firing (mk_pt_regs 1000 2000 3000) 0x1000000A 180
            later_user_memory no_memory.

(** A generic entry and exit on another id. *)
Definition other_entry : firing :=
  mk_firing (mk_pt_regs 0 0 0) 0x2000000B 120 no_memory no_memory.
Definition other_exit : firing :=
  mk_firing (mk_pt_regs 0 0 0) 0x2000000B 130 no_memory no_memory.

(** The generic entry probe fired for id [k] at time [k]. *)
Definition entry_firing (k : Z) : firing :=
  mk_firing (mk_pt_regs 0 0 0) k k no_memory no_memory.

Definition entries (ks : list Z) : list (probe * firing) :=
  (λ k, (function_entry, entry_firing k)) <$> ks.

(** The state reached from the empty tables by 10240 generic entries, for
    the ids 1 to 10240: [active_requests] holds [max_entries] records. *)
Definition full_state : bpf_state :=
  run (entries (seqZ 1 10240)) bpf_state_empty.

(** ** The header codec as the specification words it *)

Module Spec.

Inductive decode_error := MalformedHeader | UnsupportedVersion.

(** The value of one hex character. *)
Definition hex_value (c : Z) : option Z :=
  if decide (48 <= c <= 57) then Some (c - 48)
  else if decide (97 <= c <= 102) then Some (c - 87)
  else if decide (65 <= c <= 70) then Some (c - 55)
  else None.

(** Two hex characters make one byte. *)
Fixpoint hex_decode (cs : list Z) : option (list Z) :=
  match cs with
  | [] => Some []
  | h :: l :: rest =>
      hi ← hex_value h; lo ← hex_value l; bs ← hex_decode rest;
      Some (16 * hi + lo :: bs)
  | _ => None
  end.

(** [decode]: the layout "{version}-{trace-id}-{span-id}-{flags}" of
    2, 32, 16 and 2 hex characters separated by '-' (byte 45);
    the only version recognised is 00. *)
Definition decode (header : list Z) : decode_error + trace_context :=
  if decide (length header = 55%nat) then
    match hex_decode (take 2 header),
          hex_decode (take 32 (drop 3 header)),
          hex_decode (take 16 (drop 36 header)),
          hex_decode (drop 53 header) with
    | Some version, Some trace, Some span, Some [fl] =>
        if decide (header !! 2%nat = Some 45 ∧ header !! 35%nat = Some 45
                   ∧ header !! 52%nat = Some 45)
        then if decide (version = [0])
             then inr {| trace_id := trace; span_id := span; flags := fl |}
             else inl UnsupportedVersion
        else inl MalformedHeader
    | _, _, _, _ => inl MalformedHeader
    end
  else inl MalformedHeader.

End Spec.

(** ** Vocabulary for the further properties *)

(** The probes that can hand a record to user space. *)
Definition emits (p : probe) : bool :=
  match p with
  | http_handler_end | function_exit => true
  | _ => false
  end.

(** How many firings of a run are of such probes. *)
Fixpoint end_firings (calls : list (probe * firing)) : nat :=
  match calls with
  | [] => 0
  | (p, _) :: rest => ((if emits p then 1 else 0) + end_firings rest)%nat
  end.

(** The two kprobes on the TCP layer. *)
Definition network_probe (p : probe) : bool :=
  match p with
  | tcp_sendmsg | tcp_recvmsg => true
  | _ => false
  end.

(** The record [trace_function_entry] stores. *)
Definition entry_event (f : firing) : http_event :=
  set_tid (u32 (Z.land (current_pid_tgid f) 0xFFFFFFFF))
    (set_pid (u32 (Z.shiftr (current_pid_tgid f) 32))
       (set_timestamp_ns (ktime_ns f) http_event_zero)).

(** The record [trace_function_exit] emits for the pending [event]. *)
Definition exit_event (f : firing) (event : http_event) : http_event :=
  set_duration_ns (u64 (ktime_ns f - timestamp_ns event)) event.

(** A [size]-byte [char] array whose last byte is NUL. *)
Definition nul_terminated (size : nat) (buf : list Z) : Prop :=
  length buf = size ∧ last buf = Some 0.

(** The fields of a record fit [struct http_event]: the three arrays have
    their declared sizes and end in NUL, the integers are in the range of
    their C types. *)
Definition record_in_layout (e : http_event) : Prop :=
  nul_terminated MAX_METHOD_LEN (method e)
  ∧ nul_terminated MAX_PATH_LEN (path e)
  ∧ nul_terminated TRACEPARENT_LEN (traceparent e)
  ∧ 0 <= pid e < 2 ^ 32
  ∧ 0 <= tid e < 2 ^ 32
  ∧ 0 <= status_code e < 2 ^ 16
  ∧ 0 <= duration_ns e < 2 ^ 64
  ∧ 0 <= content_length e < 2 ^ 32.

(** The record carries the two halves of the key [k] it is stored under. *)
Definition keyed_by (k : Z) (e : http_event) : Prop :=
  pid e = u32 (Z.shiftr k 32) ∧ tid e = u32 (Z.land k 0xFFFFFFFF).

(** A context as the start probe leaves it: both arrays have their
    declared sizes and end in NUL, and [flags] is 0. *)
Definition context_in_layout (c : trace_context) : Prop :=
  nul_terminated 16 (trace_id c) ∧ nul_terminated 8 (span_id c)
  ∧ flags c = 0.

(** Firings for the further properties: a start whose three pointers are
    not NULL and point to unreadable memory, and the start and end of a
    second request on another id. *)
Definition unreadable_start : firing :=
  mk_firing (mk_pt_regs 1000 2000 3000) 0x1000000A 100 no_memory no_memory.

(** A start whose method and path are long strings and whose header is
    the 55-character example. *)
Definition long_user_memory : memory :=
  place_str 1000 "PROPPATCH-EXTENDED-METHOD"
    (place_str 2000
       "/api/v1/subscribers/imsi-001010000000001/sessions/5/policies/qos-flows/9/usage-reports/2024-06/monthly-aggregate-summary/details"
       (place_str 3000 example_header no_memory)).

Definition long_start : firing :=
  mk_firing (mk_pt_regs 1000 2000 3000) 0x1000000A 100
            long_user_memory no_memory.

Definition other_start : firing :=
  mk_firing (mk_pt_regs 2000 1000 5000) 0x2000000B 110
            example_user_memory no_memory.

Definition other_end : firing :=
  mk_firing (mk_pt_regs 404 0 0) 0x2000000B 300 no_memory no_memory.

(** * Properties *)

(** ** The string helpers *)

Section StringHelper.

Variable m : memory.

Lemma strncpy_nofault_cstring (s : list Z) :
  ∀ (p : Z) (n : nat),
    cstring_at m p s →
    Helper.strncpy_nofault m p n
    = Some (if decide (length s < n)%nat then s ++ [0] else take n s).
Proof.
  induction s as [|c s IH]; intros p n Hs; destruct n as [|n]; simpl in *.
  - done.
  - rewrite Hs. by rewrite decide_True by done.
  - done.
  - destruct Hs as (Hc & Hp & Hs). rewrite Hp.
    rewrite decide_False by done.
    rewrite (IH _ n Hs). simpl.
    destruct (decide (length s < n)%nat);
      [rewrite decide_True by lia | rewrite decide_False by lia]; done.
Qed.

Lemma strncpy_nofault_length (n : nat) :
  ∀ (p : Z) (bs : list Z),
    Helper.strncpy_nofault m p n = Some bs → (length bs ≤ n)%nat.
Proof.
  induction n as [|n IH]; intros p bs; simpl.
  - intros [= <-]. simpl. lia.
  - destruct (m p) as [c|]; [|done].
    destruct (decide (c = 0)).
    + intros [= <-]. simpl. lia.
    + destruct (Helper.strncpy_nofault m (p + 1) n) as [bs'|] eqn:E;
        simpl; [|done].
      intros [= <-]. simpl. apply IH in E. lia.
Qed.

(** The addresses loaded lie in the [count] bytes from [src]. *)
Lemma strncpy_touched_range (n : nat) :
  ∀ (p a : Z), a ∈ Helper.strncpy_touched m p n → p <= a < p + Z.of_nat n.
Proof.
  induction n as [|n IH]; intros p a; simpl.
  - by intros ?%elem_of_nil.
  - intros [->|Ha]%elem_of_cons; [lia|].
    destruct (m p) as [c|]; [|by apply elem_of_nil in Ha].
    destruct (decide (c = 0)); [by apply elem_of_nil in Ha|].
    apply IH in Ha. lia.
Qed.

(** Reading a C string into a zeroed buffer of [size] bytes. *)
Lemma read_cstring (p : Z) (s : list Z) (size : nat) :
  (0 < size)%nat →
  cstring_at m p s →
  (Helper.bpf_probe_read_str m (zeroed size) size p).1 = c_buffer size s.
Proof.
  intros Hsize Hs. unfold Helper.bpf_probe_read_str, c_buffer.
  rewrite (strncpy_nofault_cstring s p size Hs).
  destruct (decide (length s < size)%nat) as [Hlt|Hge]; simpl.
  - unfold Helper.nul_terminate.
    destruct (s ++ [0]) as [|b bs] eqn:E.
    { by destruct s. }
    rewrite <- E. rewrite length_app. simpl.
    replace (length s + 1 - 1)%nat with (length s) by lia.
    rewrite take_app_length.
    rewrite (take_ge s) by lia.
    unfold zeroed. rewrite drop_replicate.
    rewrite <- app_assoc. f_equal.
    replace (size - length s)%nat with (S (size - (length s + 1))) by lia.
    done.
  - unfold Helper.nul_terminate.
    destruct (take size s) as [|b bs] eqn:E.
    { apply (f_equal length) in E. rewrite length_take in E.
      simpl in E. lia. }
    rewrite <- E. rewrite length_take.
    replace (size `min` length s)%nat with size by lia.
    rewrite take_take.
    replace ((size - 1) `min` size)%nat with (size - 1)%nat by lia.
    unfold zeroed. rewrite drop_replicate.
    rewrite length_take.
    replace (size - (size - 1) `min` length s)%nat with 1%nat by lia.
    replace (size - size)%nat with 0%nat by lia.
    simpl. by rewrite app_nil_r.
Qed.

End StringHelper.

(** ** The map helpers *)

Section MapHelper.

Context {V : Type} (map : hash_map V).

Lemma update_elem_present (key : Z) (value : V) (st : bpf_state) :
  is_Some (contents map st !! key) →
  bpf_map_update_elem map key value st
  = (0, with_contents map (<[key := value]> (contents map st)) st).
Proof. intros [old E]. unfold bpf_map_update_elem. by rewrite E. Qed.

Lemma update_elem_room (key : Z) (value : V) (st : bpf_state) :
  Z.of_nat (size (contents map st)) < max_entries map →
  bpf_map_update_elem map key value st
  = (0, with_contents map (<[key := value]> (contents map st)) st).
Proof.
  intros Hroom. unfold bpf_map_update_elem.
  destruct (contents map st !! key); [done|].
  by rewrite decide_True.
Qed.

Lemma update_elem_full (key : Z) (value : V) (st : bpf_state) :
  contents map st !! key = None →
  max_entries map <= Z.of_nat (size (contents map st)) →
  bpf_map_update_elem map key value st = (- E2BIG, st).
Proof.
  intros E Hfull. unfold bpf_map_update_elem. rewrite E.
  by rewrite decide_False by lia.
Qed.

(** Whatever the outcome, an update changes the state through
    [with_contents] only, and at [key] only. *)
Lemma update_elem_cases (key : Z) (value : V) (st : bpf_state) :
  exec (bpf_map_update_elem map key value) st = st
  ∨ exec (bpf_map_update_elem map key value) st
    = with_contents map (<[key := value]> (contents map st)) st.
Proof.
  unfold exec, bpf_map_update_elem.
  destruct (contents map st !! key); [by right|].
  case_decide; [by right | by left].
Qed.

End MapHelper.

(** ** The probes in closed form *)

Lemma start_exec (f : firing) (st : bpf_state) :
  exec (trace_http_request_start f) st
  = exec (bpf_map_update_elem active_requests_map (current_pid_tgid f)
            (start_event f))
      (if decide (dx (regs f) ≠ 0)
       then exec (bpf_map_update_elem trace_contexts_map (current_pid_tgid f)
                    (start_context f)) st
       else st).
Proof.
  unfold trace_http_request_start, start_context, start_event, exec.
  unfold PT_REGS_PARM1, PT_REGS_PARM2, PT_REGS_PARM3.
  unfold mbind, prog_bind, mret, prog_ret.
  destruct (decide (dx (regs f) ≠ 0)); simpl.
  - destruct (bpf_map_update_elem trace_contexts_map _ _ st) as [r st1].
    simpl.
    by destruct (bpf_map_update_elem active_requests_map _ _ st1).
  - by destruct (bpf_map_update_elem active_requests_map _ _ st).
Qed.

Lemma end_exec_miss (f : firing) (st : bpf_state) :
  active_requests st !! current_pid_tgid f = None →
  trace_http_request_end f st = (0, st).
Proof.
  intros E. unfold trace_http_request_end.
  unfold mbind, prog_bind, mret, prog_ret, bpf_map_lookup_elem, gets.
  simpl. by rewrite E.
Qed.

Lemma end_exec_hit (f : firing) (st : bpf_state) (event : http_event) :
  active_requests st !! current_pid_tgid f = Some event →
  exec (trace_http_request_end f) st
  = mk_bpf_state (http_events st ++ [end_event f event])
      (delete (current_pid_tgid f) (active_requests st))
      (delete (current_pid_tgid f) (trace_contexts st)).
Proof.
  intros E. unfold trace_http_request_end, exec.
  unfold mbind, prog_bind, mret, prog_ret, bpf_map_lookup_elem, gets.
  simpl. rewrite E.
  unfold PT_REGS_PARM1, PT_REGS_PARM2.
  fold (end_event f event).
  unfold store_elem, modify, bpf_perf_event_output, bpf_map_delete_elem.
  simpl. rewrite lookup_insert_eq. simpl.
  rewrite delete_insert_eq.
  destruct (trace_contexts st !! current_pid_tgid f) eqn:Ec; simpl.
  - done.
  - by rewrite (delete_id (trace_contexts st)).
Qed.

Lemma exit_exec_miss (f : firing) (st : bpf_state) :
  active_requests st !! current_pid_tgid f = None →
  trace_function_exit f st = (0, st).
Proof.
  intros E. unfold trace_function_exit.
  unfold mbind, prog_bind, mret, prog_ret, bpf_map_lookup_elem, gets.
  simpl. by rewrite E.
Qed.

Lemma exit_exec_hit (f : firing) (st : bpf_state) (event : http_event) :
  active_requests st !! current_pid_tgid f = Some event →
  exec (trace_function_exit f) st
  = mk_bpf_state
      (http_events st
       ++ [set_duration_ns (u64 (ktime_ns f - timestamp_ns event)) event])
      (delete (current_pid_tgid f) (active_requests st))
      (trace_contexts st).
Proof.
  intros E. unfold trace_function_exit, exec.
  unfold mbind, prog_bind, mret, prog_ret, bpf_map_lookup_elem, gets.
  simpl. rewrite E.
  unfold store_elem, modify, bpf_perf_event_output, bpf_map_delete_elem.
  simpl. rewrite lookup_insert_eq. simpl.
  by rewrite delete_insert_eq.
Qed.

Lemma entry_exec (f : firing) (st : bpf_state) :
  exec (trace_function_entry f) st
  = exec (bpf_map_update_elem active_requests_map (current_pid_tgid f)
            (set_tid (u32 (Z.land (current_pid_tgid f) 0xFFFFFFFF))
               (set_pid (u32 (Z.shiftr (current_pid_tgid f) 32))
                  (set_timestamp_ns (ktime_ns f) http_event_zero)))) st.
Proof.
  unfold trace_function_entry, exec, mbind, prog_bind, mret, prog_ret.
  by destruct (bpf_map_update_elem active_requests_map _ _ st).
Qed.

Lemma tcp_sendmsg_exec (f : firing) (st : bpf_state) :
  trace_tcp_sendmsg f st = (0, st).
Proof.
  unfold trace_tcp_sendmsg, mbind, prog_bind, mret, prog_ret.
  unfold bpf_map_lookup_elem, gets.
  by destruct (contents trace_contexts_map st !! current_pid_tgid f).
Qed.

(** ** What an update of one map leaves alone *)

Lemma update_contexts_active (key : Z) (c : trace_context) (st : bpf_state) :
  active_requests (exec (bpf_map_update_elem trace_contexts_map key c) st)
  = active_requests st.
Proof. by destruct (update_elem_cases trace_contexts_map key c st) as [-> | ->]. Qed.

Lemma update_contexts_events (key : Z) (c : trace_context) (st : bpf_state) :
  http_events (exec (bpf_map_update_elem trace_contexts_map key c) st)
  = http_events st.
Proof. by destruct (update_elem_cases trace_contexts_map key c st) as [-> | ->]. Qed.

Lemma update_active_contexts (key : Z) (e : http_event) (st : bpf_state) :
  trace_contexts (exec (bpf_map_update_elem active_requests_map key e) st)
  = trace_contexts st.
Proof. by destruct (update_elem_cases active_requests_map key e st) as [-> | ->]. Qed.

Lemma update_active_events (key : Z) (e : http_event) (st : bpf_state) :
  http_events (exec (bpf_map_update_elem active_requests_map key e) st)
  = http_events st.
Proof. by destruct (update_elem_cases active_requests_map key e st) as [-> | ->]. Qed.

Lemma update_active_other (key id : Z) (e : http_event) (st : bpf_state) :
  key ≠ id →
  active_requests (exec (bpf_map_update_elem active_requests_map key e) st)
  !! id = active_requests st !! id.
Proof.
  intros Hne.
  destruct (update_elem_cases active_requests_map key e st) as [-> | ->];
    [done|]. simpl. by rewrite lookup_insert_ne.
Qed.

Lemma update_contexts_other (key id : Z) (c : trace_context)
      (st : bpf_state) :
  key ≠ id →
  trace_contexts (exec (bpf_map_update_elem trace_contexts_map key c) st)
  !! id = trace_contexts st !! id.
Proof.
  intros Hne.
  destruct (update_elem_cases trace_contexts_map key c st) as [-> | ->];
    [done|]. simpl. by rewrite lookup_insert_ne.
Qed.

Lemma after_context_update_active (f : firing) (st : bpf_state) :
  active_requests (after_context_update f st) = active_requests st.
Proof.
  unfold after_context_update. case_decide; [|done].
  apply update_contexts_active.
Qed.

Lemma after_context_update_events (f : firing) (st : bpf_state) :
  http_events (after_context_update f st) = http_events st.
Proof.
  unfold after_context_update. case_decide; [|done].
  apply update_contexts_events.
Qed.

(** ** The start probe *)

(** The start probe hands nothing to user space. *)
Lemma start_emits_nothing (f : firing) (st : bpf_state) :
  http_events (exec (trace_http_request_start f) st) = http_events st.
Proof.
  rewrite start_exec. fold (after_context_update f st).
  by rewrite update_active_events, after_context_update_events.
Qed.

(** When the key is present or the map has room the event is stored. *)
Lemma start_stores_event (f : firing) (st : bpf_state) :
  is_Some (active_requests st !! current_pid_tgid f)
  ∨ Z.of_nat (size (active_requests st)) < max_entries active_requests_map →
  active_requests (exec (trace_http_request_start f) st)
  = <[current_pid_tgid f := start_event f]> (active_requests st).
Proof.
  intros Hroom. rewrite start_exec. fold (after_context_update f st).
  unfold exec.
  destruct Hroom as [Hin | Hroom].
  - rewrite update_elem_present; simpl;
      by rewrite after_context_update_active.
  - rewrite update_elem_room; simpl;
      by rewrite after_context_update_active.
Qed.

(** When the map is full and the key is new the event is not stored. *)
Lemma start_full_active (f : firing) (st : bpf_state) :
  active_requests st !! current_pid_tgid f = None →
  max_entries active_requests_map <= Z.of_nat (size (active_requests st)) →
  active_requests (exec (trace_http_request_start f) st)
  = active_requests st.
Proof.
  intros Hnew Hfull. rewrite start_exec. fold (after_context_update f st).
  unfold exec. rewrite update_elem_full; simpl;
    by rewrite after_context_update_active.
Qed.

(** ** Probes fired for another id *)

Lemma handler_other_id (p : probe) (f : firing) (st : bpf_state) (id : Z) :
  current_pid_tgid f ≠ id →
  active_requests (exec (handler p f) st) !! id = active_requests st !! id
  ∧ trace_contexts (exec (handler p f) st) !! id = trace_contexts st !! id.
Proof.
  intros Hne. destruct p; simpl.
  - rewrite start_exec. fold (after_context_update f st). split.
    + rewrite update_active_other by done.
      by rewrite after_context_update_active.
    + rewrite update_active_contexts. unfold after_context_update.
      case_decide; [|done]. by apply update_contexts_other.
  - destruct (active_requests st !! current_pid_tgid f) as [e|] eqn:E.
    + rewrite (end_exec_hit f st e E). simpl.
      by rewrite !lookup_delete_ne.
    + unfold exec. by rewrite end_exec_miss.
  - rewrite entry_exec. split.
    + by apply update_active_other.
    + by rewrite update_active_contexts.
  - destruct (active_requests st !! current_pid_tgid f) as [e|] eqn:E.
    + rewrite (exit_exec_hit f st e E). simpl.
      by rewrite lookup_delete_ne.
    + unfold exec. by rewrite exit_exec_miss.
  - unfold exec. by rewrite tcp_sendmsg_exec.
  - done.
Qed.

Lemma run_app (a b : list (probe * firing)) (st : bpf_state) :
  run (a ++ b) st = run b (run a st).
Proof.
  revert st. induction a as [|[p f] a IH]; intros st; simpl; [done|].
  apply IH.
Qed.

Lemma run_other_ids (calls : list (probe * firing)) (id : Z) :
  Forall (λ c, current_pid_tgid c.2 ≠ id) calls →
  ∀ st,
    active_requests (run calls st) !! id = active_requests st !! id
    ∧ trace_contexts (run calls st) !! id = trace_contexts st !! id.
Proof.
  induction 1 as [|[p f] calls Hne _ IH]; intros st; simpl; [done|].
  destruct (IH (exec (handler p f) st)) as [-> ->].
  by apply handler_other_id.
Qed.

(** ** The fields of the records the probes build *)

Lemma pid_tid_split (id : Z) :
  0 <= id < 2 ^ 64 →
  u32 (Z.shiftr id 32) * 2 ^ 32 + u32 (Z.land id 0xFFFFFFFF) = id
  ∧ 0 <= u32 (Z.land id 0xFFFFFFFF) < 2 ^ 32.
Proof.
  intros Hid. unfold u32.
  change 0xFFFFFFFF with (Z.ones 32).
  rewrite Z.land_ones by lia. rewrite Z.shiftr_div_pow2 by lia.
  rewrite Z.mod_mod by lia.
  assert (0 <= id / 2 ^ 32 < 2 ^ 32) as Hhi.
  { split; [apply Z.div_pos; lia|].
    apply Z.div_lt_upper_bound; lia. }
  rewrite (Z.mod_small (id / 2 ^ 32)) by lia.
  split; [|apply Z.mod_pos_bound; lia].
  pose proof (Z.div_mod id (2 ^ 32)). lia.
Qed.

Lemma start_event_scalars (f : firing) :
  timestamp_ns (start_event f) = ktime_ns f
  ∧ pid (start_event f) = u32 (Z.shiftr (current_pid_tgid f) 32)
  ∧ tid (start_event f) = u32 (Z.land (current_pid_tgid f) 0xFFFFFFFF)
  ∧ status_code (start_event f) = 0
  ∧ duration_ns (start_event f) = 0
  ∧ content_length (start_event f) = 0.
Proof. unfold start_event. by case_decide. Qed.

Lemma start_event_method (f : firing) :
  method (start_event f)
  = (Helper.bpf_probe_read_str (user_memory f) (zeroed MAX_METHOD_LEN)
       MAX_METHOD_LEN (di (regs f))).1.
Proof. unfold start_event. by case_decide. Qed.

Lemma start_event_path (f : firing) :
  path (start_event f)
  = (Helper.bpf_probe_read_str (user_memory f) (zeroed MAX_PATH_LEN)
       MAX_PATH_LEN (si (regs f))).1.
Proof. unfold start_event. by case_decide. Qed.

Lemma start_event_traceparent (f : firing) :
  traceparent (start_event f)
  = if decide (dx (regs f) ≠ 0)
    then (Helper.bpf_probe_read_str (user_memory f) (zeroed TRACEPARENT_LEN)
            TRACEPARENT_LEN (dx (regs f))).1
    else zeroed TRACEPARENT_LEN.
Proof. unfold start_event. by case_decide. Qed.

(** The end probe writes [duration_ns], [status_code] and
    [content_length]; the other fields of the pending record go out as
    they were stored. *)
Lemma end_event_fields (f : firing) (e : http_event) :
  timestamp_ns (end_event f e) = timestamp_ns e
  ∧ pid (end_event f e) = pid e
  ∧ tid (end_event f e) = tid e
  ∧ method (end_event f e) = method e
  ∧ path (end_event f e) = path e
  ∧ traceparent (end_event f e) = traceparent e
  ∧ duration_ns (end_event f e) = u64 (ktime_ns f - timestamp_ns e)
  ∧ status_code (end_event f e) = u16 (di (regs f)).
Proof. unfold end_event. by case_decide. Qed.

Lemma c_buffer_short (size : nat) (s : list Z) :
  (length s < size)%nat →
  c_buffer size s = s ++ zeroed (size - length s).
Proof. intros Hlt. unfold c_buffer. by rewrite take_ge by lia. Qed.

(** ** A start and the end that follows it *)

(** The run of a start for [id], probes fired for other ids, and an end for
    [id], when the start found room in [active_requests]: the end hands
    over the record the start stored, completed. *)
Lemma start_others_end (st : bpf_state) (fs fe : firing)
      (mid : list (probe * firing)) :
  current_pid_tgid fe = current_pid_tgid fs →
  Forall (λ c, current_pid_tgid c.2 ≠ current_pid_tgid fs) mid →
  is_Some (active_requests st !! current_pid_tgid fs)
  ∨ Z.of_nat (size (active_requests st)) < max_entries active_requests_map →
  run ((http_handler_start, fs) :: mid ++ [(http_handler_end, fe)]) st
  = let st' := run ((http_handler_start, fs) :: mid) st in
    mk_bpf_state (http_events st' ++ [end_event fe (start_event fs)])
      (delete (current_pid_tgid fs) (active_requests st'))
      (delete (current_pid_tgid fs) (trace_contexts st')).
Proof.
  intros Hid Hmid Hroom.
  change ((http_handler_start, fs) :: mid ++ [(http_handler_end, fe)])
    with (((http_handler_start, fs) :: mid) ++ [(http_handler_end, fe)]).
  rewrite run_app. simpl.
  set (st1 := exec (trace_http_request_start fs) st).
  assert (active_requests (run mid st1) !! current_pid_tgid fe
          = Some (start_event fs)) as Hpending.
  { rewrite Hid. destruct (run_other_ids mid _ Hmid st1) as [-> _].
    unfold st1. rewrite start_stores_event by done.
    apply lookup_insert_eq. }
  rewrite (end_exec_hit fe _ _ Hpending). by rewrite Hid.
Qed.

(** ** Facts about the full table *)

(** Generic entries for new, distinct ids that fit in the table each add
    their record and touch nothing else. *)
Lemma run_entries (ks : list Z) :
  ∀ st : bpf_state,
    NoDup ks →
    (∀ k, k ∈ ks → active_requests st !! k = None) →
    Z.of_nat (size (active_requests st)) + Z.of_nat (length ks)
    <= max_entries active_requests_map →
    http_events (run (entries ks) st) = http_events st
    ∧ trace_contexts (run (entries ks) st) = trace_contexts st
    ∧ Z.of_nat (size (active_requests (run (entries ks) st)))
      = Z.of_nat (size (active_requests st)) + Z.of_nat (length ks)
    ∧ ∀ k, k ∉ ks →
           active_requests (run (entries ks) st) !! k
           = active_requests st !! k.
Proof.
  induction ks as [|k ks IH]; intros st Hnodup Hnew Hfit.
  - simpl. split_and!; try done. lia.
  - apply NoDup_cons in Hnodup as [Hk Hnodup].
    unfold entries. rewrite fmap_cons. fold (entries ks).
    cbn [run handler]. rewrite entry_exec.
    set (e := set_tid _ _).
    assert (active_requests st !! k = None) as Hfresh.
    { apply Hnew. apply elem_of_cons. by left. }
    assert (exec (bpf_map_update_elem active_requests_map
                    (current_pid_tgid (entry_firing k)) e) st
            = mk_bpf_state (http_events st)
                (<[k := e]> (active_requests st)) (trace_contexts st))
      as Hstep.
    { unfold exec. rewrite update_elem_room; [done|].
      simpl length in Hfit. cbn [contents active_requests_map]. lia. }
    rewrite Hstep.
    destruct (IH (mk_bpf_state (http_events st)
                    (<[k := e]> (active_requests st)) (trace_contexts st)))
      as (Hev & Hctx & Hsize & Hother).
    + done.
    + intros k' Hk'. cbn [active_requests].
      rewrite lookup_insert_ne by (intros ->; done).
      apply Hnew. apply elem_of_cons. by right.
    + cbn [active_requests]. rewrite map_size_insert_None by done.
      simpl length in Hfit. lia.
    + rewrite Hev, Hctx, Hsize. cbn [http_events trace_contexts
                                      active_requests].
      rewrite map_size_insert_None by done. simpl length.
      split_and!; try done; [lia|].
      intros k' Hk'. apply not_elem_of_cons in Hk' as [Hne Hk'].
      rewrite (Hother k' Hk'). cbn [active_requests].
      by rewrite lookup_insert_ne.
Qed.

Lemma full_state_facts :
  http_events full_state = []
  ∧ trace_contexts full_state = ∅
  ∧ Z.of_nat (size (active_requests full_state)) = 10240
  ∧ ∀ k, 10240 < k → active_requests full_state !! k = None.
Proof.
  unfold full_state.
  destruct (run_entries (seqZ 1 10240) bpf_state_empty)
    as (Hev & Hctx & Hsize & Hother).
  - apply NoDup_seqZ.
  - intros k _. apply lookup_empty.
  - cbn [active_requests bpf_state_empty]. rewrite map_size_empty.
    rewrite length_seqZ. reflexivity.
  - split_and!; [exact Hev | exact Hctx | |].
    + rewrite Hsize. cbn [active_requests bpf_state_empty].
      rewrite map_size_empty, length_seqZ. reflexivity.
    + intros k Hk. rewrite Hother; [apply lookup_empty|].
      rewrite elem_of_seqZ. lia.
Qed.

Lemma full_state_is_full :
  max_entries active_requests_map
  <= Z.of_nat (size (active_requests full_state)).
Proof.
  destruct full_state_facts as (_ & _ & -> & _). reflexivity.
Qed.

Lemma full_state_fresh (id : Z) :
  10240 < id → active_requests full_state !! id = None.
Proof. destruct full_state_facts as (_ & _ & _ & H). apply H. Qed.

Lemma full_state_contexts : trace_contexts full_state = ∅.
Proof. by destruct full_state_facts as (_ & H & _). Qed.

(** ** C1: a start and its matching end *)

(** A start that finds the table full and its id new, then the end for
    that id: nothing is handed to user space. *)
Lemma start_end_when_full (st : bpf_state) (fs fe : firing) :
  current_pid_tgid fe = current_pid_tgid fs →
  active_requests st !! current_pid_tgid fs = None →
  max_entries active_requests_map <= Z.of_nat (size (active_requests st)) →
  http_events
    (run [(http_handler_start, fs); (http_handler_end, fe)] st)
  = http_events st.
Proof.
  intros Hid Hnew Hfull. simpl.
  assert (active_requests (exec (trace_http_request_start fs) st)
          !! current_pid_tgid fe = None) as Hmiss.
  { rewrite Hid. by rewrite start_full_active. }
  unfold exec at 1. rewrite (end_exec_miss _ _ Hmiss). simpl.
  apply start_emits_nothing.
Qed.

Lemma not_own_snoc {A} (l : list A) (x : A) : l ≠ l ++ [x].
Proof.
  intros E. apply (f_equal length) in E. rewrite length_app in E.
  simpl in E. lia.
Qed.

(** C1, as stated, at the full table: [active_requests] holds 10240 records
    of other ids, the start probe runs for a new id, then the end probe for
    the same id.  The claim promises one emitted event; none is emitted. *)
Lemma start_end_full_table_emits_nothing :
  ¬ ∃ ev : http_event,
      http_events
        (run [(http_handler_start, example_start);
              (http_handler_end, example_end)] full_state)
      = http_events full_state ++ [ev].
Proof.
  intros [ev Hev].
  rewrite start_end_when_full in Hev.
  - by apply not_own_snoc in Hev.
  - reflexivity.
  - apply full_state_fresh. reflexivity.
  - apply full_state_is_full.
Qed.

(** C1 (amended): when [active_requests] already holds the id or holds fewer
    than 10240 records, a start for [id] followed by probes of other ids
    and then an end for [id] emits exactly one event, at the end probe.
    Its duration is the end time minus the start time in 64-bit unsigned
    arithmetic, its timestamp is the start time, its pid and tid are the
    high and low halves of [id], its method and path are the first 15 and
    127 bytes of the strings supplied, NUL-padded to 16 and 128 bytes, and
    a header shorter than 55 bytes is there verbatim, NUL-padded to 55.
    The event, its duration, timestamp, pid and tid do not depend on what
    the three string arguments are. *)
Theorem start_end_emits_one_event (st : bpf_state) (fs fe : firing)
        (mid : list (probe * firing)) :
  let id := current_pid_tgid fs in
  let um := user_memory fs in
  current_pid_tgid fe = id →
  Forall (λ c, current_pid_tgid c.2 ≠ id) mid →
  is_Some (active_requests st !! id)
  ∨ Z.of_nat (size (active_requests st)) < 10240 →
  0 <= id < 2 ^ 64 →
  http_events (exec (trace_http_request_start fs) st) = http_events st
  ∧ ∃ ev : http_event,
      http_events
        (run ((http_handler_start, fs) :: mid ++ [(http_handler_end, fe)]) st)
      = http_events (run ((http_handler_start, fs) :: mid) st) ++ [ev]
      ∧ duration_ns ev = u64 (ktime_ns fe - ktime_ns fs)
      ∧ (0 <= ktime_ns fs <= ktime_ns fe ∧ ktime_ns fe < 2 ^ 64 →
         duration_ns ev = ktime_ns fe - ktime_ns fs)
      ∧ timestamp_ns ev = ktime_ns fs
      ∧ pid ev * 2 ^ 32 + tid ev = id
      ∧ 0 <= tid ev < 2 ^ 32
      ∧ (∀ meth : list Z,
           cstring_at um (di (regs fs)) meth →
           method ev = c_buffer MAX_METHOD_LEN meth)
      ∧ (∀ pth : list Z,
           cstring_at um (si (regs fs)) pth →
           path ev = c_buffer MAX_PATH_LEN pth)
      ∧ (∀ hdr : list Z,
           dx (regs fs) ≠ 0 →
           cstring_at um (dx (regs fs)) hdr →
           (length hdr < TRACEPARENT_LEN)%nat →
           traceparent ev = hdr ++ zeroed (TRACEPARENT_LEN - length hdr)).
Proof.
  intros id um Hfe Hmid Hroom Hid.
  split; [apply start_emits_nothing|].
  exists (end_event fe (start_event fs)).
  rewrite (start_others_end st fs fe mid Hfe Hmid Hroom).
  destruct (end_event_fields fe (start_event fs))
    as (Hts & Hpid & Htid & Hm & Hp & Htp & Hdur & _).
  destruct (start_event_scalars fs) as (Hts0 & Hpid0 & Htid0 & _).
  destruct (pid_tid_split id Hid) as [Hsplit Hlow].
  rewrite Hts, Hpid, Htid, Hm, Hp, Htp, Hdur, Hts0, Hpid0, Htid0.
  split_and!; try done; try (unfold id in *; lia).
  - intros Hmono. unfold u64. apply Z.mod_small. lia.
  - intros meth Hmeth. rewrite start_event_method.
    apply read_cstring; [|done]. unfold MAX_METHOD_LEN. lia.
  - intros pth Hpth. rewrite start_event_path.
    apply read_cstring; [|done]. unfold MAX_PATH_LEN. lia.
  - intros hdr Hdx Hhdr Hlen. rewrite start_event_traceparent.
    rewrite decide_True by done.
    rewrite (read_cstring _ _ hdr); [|unfold TRACEPARENT_LEN; lia|done].
    by apply c_buffer_short.
Qed.

(** The theorem at the specification's example (id 0x1000000A, start at
    100 with "GET", "/v1/status" and the 55-character example header, end
    at 250) from the empty tables, a generic entry and exit of another id
    in between; and, for the header, at the same request with a header
    shorter than 55 bytes. *)
Lemma start_end_emits_one_event_witness :
  (http_events (exec (trace_http_request_start example_start)
                  bpf_state_empty) = []
   ∧ ∃ ev : http_event,
       http_events
         (run ((http_handler_start, example_start)
               :: [(function_entry, other_entry); (function_exit, other_exit)]
               ++ [(http_handler_end, example_end)]) bpf_state_empty)
       = http_events
           (run ((http_handler_start, example_start)
                 :: [(function_entry, other_entry);
                     (function_exit, other_exit)]) bpf_state_empty) ++ [ev]
       ∧ duration_ns ev = 150
       ∧ timestamp_ns ev = 100
       ∧ pid ev * 2 ^ 32 + tid ev = 0x1000000A
       ∧ method ev = c_buffer MAX_METHOD_LEN (bytes_of "GET")
       ∧ path ev = c_buffer MAX_PATH_LEN (bytes_of "/v1/status"))
  ∧ ∃ ev : http_event,
      http_events
        (run ((http_handler_start, short_header_start)
              :: [] ++ [(http_handler_end, example_end)]) bpf_state_empty)
      = http_events
          (run ((http_handler_start, short_header_start) :: [])
             bpf_state_empty) ++ [ev]
      ∧ traceparent ev
        = bytes_of "00-abc-def-01"
          ++ zeroed (TRACEPARENT_LEN - length (bytes_of "00-abc-def-01")).
Proof.
  split.
  - destruct (start_end_emits_one_event bpf_state_empty example_start
                example_end
                [(function_entry, other_entry); (function_exit, other_exit)])
      as (Hnone & ev & Hev & _ & Hdur & Hts & Hid & _ & Hm & Hp & _).
    + reflexivity.
    + repeat constructor; simpl; lia.
    + right. vm_compute. reflexivity.
    + simpl. lia.
    + split; [exact Hnone|]. exists ev.
      split_and!; [exact Hev | | exact Hts | exact Hid | |].
      * apply Hdur. simpl. lia.
      * apply Hm. vm_compute. repeat split; discriminate.
      * apply Hp. vm_compute. repeat split; discriminate.
  - destruct (start_end_emits_one_event bpf_state_empty short_header_start
                example_end [])
      as (_ & ev & Hev & _ & _ & _ & _ & _ & _ & _ & Hh).
    + reflexivity.
    + constructor.
    + right. vm_compute. reflexivity.
    + simpl. lia.
    + exists ev. split; [exact Hev|]. apply Hh.
      * simpl. lia.
      * vm_compute. repeat split; discriminate.
      * vm_compute. lia.
Defined.

(** A string that fills its buffer or more is cut to [size - 1] bytes and
    a NUL. *)
Lemma c_buffer_long (size : nat) (s : list Z) :
  (0 < size ≤ length s)%nat →
  c_buffer size s = take (size - 1) s ++ [0].
Proof.
  intros Hlen. unfold c_buffer. rewrite length_take.
  replace (size - (size - 1) `min` length s)%nat with 1%nat by lia.
  done.
Qed.

(** The example header has exactly [TRACEPARENT_LEN] characters, so the
    start probe stores its first 54 and a NUL: the last character of the
    flags field is not in the record. *)
Lemma example_header_is_cut :
  length (bytes_of example_header) = TRACEPARENT_LEN
  ∧ traceparent (start_event example_start)
    = take 54 (bytes_of example_header) ++ [0].
Proof. split; reflexivity. Qed.

(** ** C2, C3, C4: [parse_traceparent] *)

(** A non-NULL header always parses "successfully". *)
Lemma parse_traceparent_status (hdr : list Z) (c : trace_context) :
  (parse_traceparent (Some hdr) (Some c)).1 = 0.
Proof. reflexivity. Qed.

(** The two loads at [header + 3] and [header + 36] happen whatever the
    header holds. *)
Lemma parse_traceparent_fixed_offsets (hdr : list Z) :
  3 ∈ parse_traceparent_touched hdr ∧ 36 ∈ parse_traceparent_touched hdr.
Proof.
  unfold parse_traceparent_touched. split.
  - apply elem_of_app. left. simpl. apply elem_of_cons. by left.
  - apply elem_of_app. right. simpl. apply elem_of_cons. by left.
Qed.

(** All loads fall in the 16 bytes from offset 3 or the 8 bytes from
    offset 36. *)
Lemma parse_traceparent_touched_range (hdr : list Z) (a : Z) :
  a ∈ parse_traceparent_touched hdr → 3 <= a < 19 ∨ 36 <= a < 44.
Proof.
  unfold parse_traceparent_touched.
  intros [Ha | Ha]%elem_of_app; apply strncpy_touched_range in Ha; lia.
Qed.

(** In [trace_http_request_start] the header object is the 55-byte array of
    the event, so the loads stay inside that array. *)
Lemma nul_terminate_length (bs : list Z) :
  length (Helper.nul_terminate bs) = length bs.
Proof.
  destruct bs as [|b bs]; [done|]. unfold Helper.nul_terminate.
  rewrite length_app, length_take. simpl length. lia.
Qed.

Lemma bpf_probe_read_str_length (m : memory) (dst : list Z) (size : nat)
      (p : Z) :
  length dst = size →
  length (Helper.bpf_probe_read_str m dst size p).1 = size.
Proof.
  intros Hdst. unfold Helper.bpf_probe_read_str.
  destruct (Helper.strncpy_nofault m p size) as [bs|] eqn:E; simpl fst.
  - apply strncpy_nofault_length in E.
    rewrite length_app, length_drop, nul_terminate_length. lia.
  - rewrite length_app, length_drop. unfold zeroed.
    rewrite length_replicate. lia.
Qed.

Lemma start_event_traceparent_length (f : firing) :
  length (traceparent (start_event f)) = TRACEPARENT_LEN.
Proof.
  rewrite start_event_traceparent. case_decide.
  - apply bpf_probe_read_str_length. apply length_replicate.
  - apply length_replicate.
Qed.

Lemma start_parse_in_bounds (f : firing) (a : Z) :
  a ∈ parse_traceparent_touched (traceparent (start_event f)) →
  in_bounds (traceparent (start_event f)) a.
Proof.
  intros Ha%parse_traceparent_touched_range. unfold in_bounds.
  rewrite start_event_traceparent_length. unfold TRACEPARENT_LEN. lia.
Qed.

(** C2 at the empty and the one-byte input: [parse_traceparent] returns 0
    and has loaded from offsets 3 and 36, both outside the input; called from
    the start probe with an empty header it loads the same two offsets of
    the event's array, past the terminator at offset 0. *)
Theorem parse_traceparent_reads_past_short_input :
  (parse_traceparent (Some []) (Some trace_context_zero)).1 = 0
  ∧ parse_traceparent_touched [] = [3; 36]
  ∧ Forall (λ a, ¬ in_bounds [] a) (parse_traceparent_touched [])
  ∧ (parse_traceparent (Some [65]) (Some trace_context_zero)).1 = 0
  ∧ parse_traceparent_touched [65] = [3; 36]
  ∧ Forall (λ a, ¬ in_bounds [65] a) (parse_traceparent_touched [65])
  ∧ traceparent (start_event empty_header_start) !! 0%nat = Some 0
  ∧ parse_traceparent_touched (traceparent (start_event empty_header_start))
    = [3; 36].
Proof.
  split_and!; try reflexivity.
  - repeat constructor; unfold in_bounds; simpl; lia.
  - repeat constructor; unfold in_bounds; simpl; lia.
Qed.

(** C3 at a header of the wrong length and at one of version ff: the
    specified codec rejects them as [MalformedHeader] and
    [UnsupportedVersion]; [parse_traceparent] returns 0 on them, as it does
    on every header. *)
Theorem parse_traceparent_accepts_malformed :
  Spec.decode (bytes_of "xyz") = inl Spec.MalformedHeader
  ∧ (parse_traceparent (Some (c_buffer TRACEPARENT_LEN (bytes_of "xyz")))
       (Some trace_context_zero)).1 = 0
  ∧ Spec.decode
      (bytes_of "ff-4bf92f3577b34da6a3ce929d0e0e4736-00f067aa0ba902b7-01")
    = inl Spec.UnsupportedVersion
  ∧ (parse_traceparent
       (Some (c_buffer TRACEPARENT_LEN
                (bytes_of
                   "ff-4bf92f3577b34da6a3ce929d0e0e4736-00f067aa0ba902b7-01")))
       (Some trace_context_zero)).1 = 0
  ∧ ∀ (hdr : list Z) (c : trace_context),
      (parse_traceparent (Some hdr) (Some c)).1 = 0.
Proof. split_and!; try reflexivity. Qed.

(** C4 at the example header: the specified codec gives the 16 and 8
    decoded bytes and flags 1; [parse_traceparent] leaves in [trace_id] the
    first 15 characters of the trace-id field and a NUL, in [span_id] the
    first 7 characters of the span-id field and a NUL, and never writes
    [flags]. *)
Theorem parse_traceparent_copies_characters :
  Spec.decode (bytes_of example_header)
  = inr {| trace_id := [0x4b; 0xf9; 0x2f; 0x35; 0x77; 0xb3; 0x4d; 0xa6;
                        0xa3; 0xce; 0x92; 0x9d; 0x0e; 0x0e; 0x47; 0x36];
           span_id := [0x00; 0xf0; 0x67; 0xaa; 0x0b; 0xa9; 0x02; 0xb7];
           flags := 1 |}
  ∧ (parse_traceparent (Some (bytes_of example_header))
       (Some trace_context_zero)).2
    = Some {| trace_id := bytes_of "4bf92f3577b34da" ++ [0];
              span_id := bytes_of "00f067a" ++ [0];
              flags := 0 |}
  ∧ start_context example_start
    = {| trace_id := bytes_of "4bf92f3577b34da" ++ [0];
         span_id := bytes_of "00f067a" ++ [0];
         flags := 0 |}.
Proof. split_and!; reflexivity. Qed.

(** ** C5: what the end and exit probes clear *)

(** An end that finds the pending record removes both entries of its id. *)
Lemma matched_end_clears_both (f : firing) (st : bpf_state)
      (event : http_event) :
  active_requests st !! current_pid_tgid f = Some event →
  active_requests (exec (trace_http_request_end f) st)
  !! current_pid_tgid f = None
  ∧ trace_contexts (exec (trace_http_request_end f) st)
    !! current_pid_tgid f = None.
Proof.
  intros E. rewrite (end_exec_hit f st event E). simpl.
  by rewrite !lookup_delete_eq.
Qed.

(** The exit probe never touches [trace_contexts]. *)
Lemma exit_keeps_contexts (f : firing) (st : bpf_state) :
  trace_contexts (exec (trace_function_exit f) st) = trace_contexts st.
Proof.
  destruct (active_requests st !! current_pid_tgid f) as [e|] eqn:E.
  - by rewrite (exit_exec_hit f st e E).
  - unfold exec. by rewrite exit_exec_miss.
Qed.

(** With a non-NULL header pointer the context is stored whenever
    [trace_contexts] has the id or room for it; the status
    [parse_traceparent] returns plays no part. *)
Lemma start_stores_context (f : firing) (st : bpf_state) :
  dx (regs f) ≠ 0 →
  is_Some (trace_contexts st !! current_pid_tgid f)
  ∨ Z.of_nat (size (trace_contexts st)) < max_entries trace_contexts_map →
  trace_contexts (exec (trace_http_request_start f) st)
  !! current_pid_tgid f = Some (start_context f).
Proof.
  intros Hdx Hroom. rewrite start_exec.
  rewrite update_active_contexts. rewrite decide_True by done.
  unfold exec. destruct Hroom as [Hin | Hroom].
  - rewrite update_elem_present by done. simpl. apply lookup_insert_eq.
  - rewrite update_elem_room by done. simpl. apply lookup_insert_eq.
Qed.

(** With a NULL header pointer [trace_contexts] is left as it is. *)
Lemma start_null_header_contexts (f : firing) (st : bpf_state) :
  dx (regs f) = 0 →
  trace_contexts (exec (trace_http_request_start f) st) = trace_contexts st.
Proof.
  intros Hdx. rewrite start_exec. rewrite update_active_contexts.
  by rewrite decide_False by (intros ?; done).
Qed.

(** C5 at two runs for one id.  From the empty tables, a start with a
    header, then the generic exit, then the end: after the exit the pending
    record is gone and the context is still stored; the end that follows
    finds no pending record, returns early, and the context is still
    stored after it.  From the full table, a start with a header for a new
    id, then its end: the start stores the context and not the record, the
    end returns early, and the context is still stored after it. *)
Theorem orphaned_end_and_exit_keep_context :
  let id := current_pid_tgid example_start in
  let st1 := run [(http_handler_start, example_start);
                  (function_exit, example_end)] bpf_state_empty in
  let st2 := run [(http_handler_end, example_end)] st1 in
  let st3 := run [(http_handler_start, example_start);
                  (http_handler_end, example_end)] full_state in
  active_requests st1 !! id = None
  ∧ trace_contexts st1 !! id = Some (start_context example_start)
  ∧ st2 = st1
  ∧ trace_contexts st2 !! id = Some (start_context example_start)
  ∧ trace_contexts st3 !! id = Some (start_context example_start).
Proof.
  assert (active_requests
            (run [(http_handler_start, example_start);
                  (function_exit, example_end)] bpf_state_empty)
          !! current_pid_tgid example_start = None
          ∧ trace_contexts
              (run [(http_handler_start, example_start);
                    (function_exit, example_end)] bpf_state_empty)
            !! current_pid_tgid example_start
            = Some (start_context example_start)) as [Hgone Hkept].
  { split; vm_compute; reflexivity. }
  cbv zeta.
  assert (run [(http_handler_end, example_end)]
            (run [(http_handler_start, example_start);
                  (function_exit, example_end)] bpf_state_empty)
          = run [(http_handler_start, example_start);
                 (function_exit, example_end)] bpf_state_empty) as Hsame.
  { cbn [run handler]. unfold exec at 1. by rewrite end_exec_miss. }
  rewrite Hsame. split_and!; [exact Hgone | exact Hkept | | exact Hkept |].
  - exact (eq_refl _).
  - cbn [run handler].
    assert (active_requests
              (exec (trace_http_request_start example_start) full_state)
            !! current_pid_tgid example_end = None) as Hmiss.
    { rewrite start_full_active.
      - apply full_state_fresh. reflexivity.
      - apply full_state_fresh. reflexivity.
      - apply full_state_is_full. }
    unfold exec at 1. rewrite (end_exec_miss _ _ Hmiss). cbn [snd].
    apply start_stores_context.
    + intros [=].
    + right. rewrite full_state_contexts, map_size_empty. reflexivity.
Qed.

(** ** C6: when the start probe stores a context *)

(** C6 at a start whose header is the empty string: the specified codec
    rejects the header, and the start probe stores for the id a context
    whose bytes are all zero. *)
Theorem start_stores_zero_context_for_empty_header :
  cstring_at (user_memory empty_header_start)
    (dx (regs empty_header_start)) []
  ∧ Spec.decode [] = inl Spec.MalformedHeader
  ∧ trace_contexts
      (exec (trace_http_request_start empty_header_start) bpf_state_empty)
    !! current_pid_tgid empty_header_start
    = Some {| trace_id := replicate 16 0; span_id := replicate 8 0;
              flags := 0 |}.
Proof.
  split_and!; [reflexivity | reflexivity |].
  rewrite start_stores_context.
  - reflexivity.
  - simpl. lia.
  - right. vm_compute. reflexivity.
Qed.

(** ** C7: an end without a pending record *)

(** C7, as stated, at the empty tables: the end probe leaves the whole
    program state as it was, so nothing in it has been incremented. *)
Lemma orphaned_end_counts_nothing :
  ¬ ∃ drops : bpf_state → Z,
      orphaned_end_claim drops example_end bpf_state_empty.
Proof.
  intros [drops (_ & _ & Hdrops)]. unfold exec in Hdrops.
  rewrite end_exec_miss in Hdrops by reflexivity.
  simpl in Hdrops. lia.
Qed.

(** C7 (amended): an end for an id without a pending record emits no
    event and leaves the entries of both tables for all other identifiers
    unchanged.  (The program keeps no drop counter.) *)
Theorem orphaned_end_emits_nothing (f : firing) (st : bpf_state) :
  active_requests st !! current_pid_tgid f = None →
  let st' := exec (trace_http_request_end f) st in
  http_events st' = http_events st
  ∧ ∀ k, k ≠ current_pid_tgid f →
         active_requests st' !! k = active_requests st !! k
         ∧ trace_contexts st' !! k = trace_contexts st !! k.
Proof.
  intros Hmiss. cbv zeta. split.
  - unfold exec. by rewrite (end_exec_miss f st Hmiss).
  - intros k Hk.
    apply (handler_other_id http_handler_end f st k). by apply not_eq_sym.
Qed.

(** The theorem at the example's end, fired when only a request of another
    id is pending. *)
Lemma orphaned_end_emits_nothing_witness :
  let st := run [(http_handler_start, other_start)] bpf_state_empty in
  let st' := exec (trace_http_request_end example_end) st in
  http_events st' = http_events st
  ∧ ∀ k, k ≠ current_pid_tgid example_end →
         active_requests st' !! k = active_requests st !! k
         ∧ trace_contexts st' !! k = trace_contexts st !! k.
Proof.
  apply (orphaned_end_emits_nothing example_end
           (run [(http_handler_start, other_start)] bpf_state_empty)).
  vm_compute. reflexivity.
Defined.

(** ** C8: a second start before the end *)

(** Two starts for a new id that find the table full, then the end:
    nothing is handed to user space. *)
Lemma two_starts_end_when_full (st : bpf_state) (f1 f2 fe : firing) :
  current_pid_tgid f2 = current_pid_tgid f1 →
  current_pid_tgid fe = current_pid_tgid f1 →
  active_requests st !! current_pid_tgid f1 = None →
  max_entries active_requests_map <= Z.of_nat (size (active_requests st)) →
  http_events
    (run [(http_handler_start, f1); (http_handler_start, f2);
          (http_handler_end, fe)] st)
  = http_events st.
Proof.
  intros Hf2 Hfe Hnew Hfull. cbn [run handler].
  set (st1 := exec (trace_http_request_start f1) st).
  assert (active_requests st1 = active_requests st) as H1.
  { unfold st1. by apply start_full_active. }
  assert (active_requests (exec (trace_http_request_start f2) st1)
          = active_requests st) as H2.
  { rewrite start_full_active; [done | |].
    - by rewrite H1, Hf2.
    - by rewrite H1. }
  unfold exec at 1. rewrite end_exec_miss by (by rewrite H2, Hfe).
  cbn [snd]. rewrite start_emits_nothing. apply start_emits_nothing.
Qed.

(** C8, as stated, at the full table: [active_requests] holds 10240 records
    of other ids, two starts fire for a new id, then the end for it.  The
    claim promises an event built from the second start; no start is
    recorded and none is emitted. *)
Lemma second_start_full_table_emits_nothing :
  ¬ ∃ ev : http_event,
      http_events
        (run [(http_handler_start, example_start);
              (http_handler_start, later_start);
              (http_handler_end, example_end)] full_state)
      = http_events full_state ++ [ev].
Proof.
  intros [ev Hev].
  rewrite two_starts_end_when_full in Hev.
  - by apply not_own_snoc in Hev.
  - reflexivity.
  - reflexivity.
  - apply full_state_fresh. reflexivity.
  - apply full_state_is_full.
Qed.

Lemma c_buffer_prefix (size : nat) (s : list Z) :
  take (size - 1) s `prefix_of` c_buffer size s.
Proof. unfold c_buffer. by eexists. Qed.

(** C8 (amended): when [active_requests] already holds the id or holds
    fewer than 10240 records as the first start fires, a second start for
    [id] before the end (probes of other ids may fire in between) replaces
    the pending record, and the end emits one event built from the second
    start and not the first: its time, the method and path read through
    the second start's pointers, and its header.  The emitted traceparent
    begins with the first 54 bytes of the second start's header, is that
    header verbatim when it is shorter than 55 bytes, and is all NUL when
    the second start's header pointer is NULL. *)
Theorem second_start_replaces_first (st : bpf_state) (f1 f2 fe : firing)
        (mid1 mid2 : list (probe * firing)) :
  let id := current_pid_tgid f1 in
  let um2 := user_memory f2 in
  let before_end :=
    (http_handler_start, f1) :: mid1 ++ (http_handler_start, f2) :: mid2 in
  current_pid_tgid f2 = id →
  current_pid_tgid fe = id →
  Forall (λ c, current_pid_tgid c.2 ≠ id) mid1 →
  Forall (λ c, current_pid_tgid c.2 ≠ id) mid2 →
  is_Some (active_requests st !! id)
  ∨ Z.of_nat (size (active_requests st)) < 10240 →
  ∃ ev : http_event,
    http_events (run (before_end ++ [(http_handler_end, fe)]) st)
    = http_events (run before_end st) ++ [ev]
    ∧ (∃ pending : http_event,
         active_requests
           (run ((http_handler_start, f1)
                 :: mid1 ++ [(http_handler_start, f2)]) st) !! id
         = Some pending
         ∧ timestamp_ns pending = ktime_ns f2
         ∧ method pending = method ev
         ∧ path pending = path ev
         ∧ traceparent pending = traceparent ev)
    ∧ timestamp_ns ev = ktime_ns f2
    ∧ duration_ns ev = u64 (ktime_ns fe - ktime_ns f2)
    ∧ (∀ meth2 : list Z,
         cstring_at um2 (di (regs f2)) meth2 →
         method ev = c_buffer MAX_METHOD_LEN meth2)
    ∧ (∀ pth2 : list Z,
         cstring_at um2 (si (regs f2)) pth2 →
         path ev = c_buffer MAX_PATH_LEN pth2)
    ∧ (∀ hdr2 : list Z,
         dx (regs f2) ≠ 0 →
         cstring_at um2 (dx (regs f2)) hdr2 →
         take 54 hdr2 `prefix_of` traceparent ev
         ∧ ((length hdr2 < TRACEPARENT_LEN)%nat →
            traceparent ev
            = hdr2 ++ zeroed (TRACEPARENT_LEN - length hdr2)))
    ∧ (dx (regs f2) = 0 → traceparent ev = zeroed TRACEPARENT_LEN).
Proof.
  intros id um2 before_end Hf2 Hfe Hmid1 Hmid2 Hroom.
  set (st1 := run mid1 (exec (trace_http_request_start f1) st)).
  assert (is_Some (active_requests st1 !! current_pid_tgid f2)) as Hst1.
  { rewrite Hf2. unfold st1.
    destruct (run_other_ids mid1 id Hmid1
                (exec (trace_http_request_start f1) st)) as [-> _].
    rewrite start_stores_event by done.
    fold id. rewrite lookup_insert_eq. by eexists. }
  assert (active_requests (exec (trace_http_request_start f2) st1) !! id
          = Some (start_event f2)) as Hsecond.
  { rewrite start_stores_event by (by left).
    rewrite Hf2. apply lookup_insert_eq. }
  exists (end_event fe (start_event f2)).
  assert (run before_end st
          = run mid2 (exec (trace_http_request_start f2) st1)) as Hbefore.
  { unfold before_end.
    change ((http_handler_start, f1)
            :: mid1 ++ (http_handler_start, f2) :: mid2)
      with ([(http_handler_start, f1)] ++ mid1
            ++ [(http_handler_start, f2)] ++ mid2).
    by rewrite !run_app. }
  assert (active_requests (run before_end st) !! current_pid_tgid fe
          = Some (start_event f2)) as Hlast.
  { rewrite Hbefore, Hfe.
    by destruct (run_other_ids mid2 id Hmid2
                   (exec (trace_http_request_start f2) st1)) as [-> _]. }
  rewrite run_app. cbn [run handler].
  rewrite (end_exec_hit fe _ _ Hlast). cbn [http_events].
  destruct (end_event_fields fe (start_event f2))
    as (Hts & _ & _ & Hm & Hp & Htp & Hdur & _).
  destruct (start_event_scalars f2) as (Hts0 & _).
  rewrite Hts, Hm, Hp, Htp, Hdur, Hts0.
  split_and!; try done.
  - exists (start_event f2). split_and!; try done.
    change ((http_handler_start, f1) :: mid1 ++ [(http_handler_start, f2)])
      with ([(http_handler_start, f1)] ++ mid1 ++ [(http_handler_start, f2)]).
    rewrite !run_app. exact Hsecond.
  - intros meth2 Hmeth. rewrite start_event_method.
    apply read_cstring; [|done]. unfold MAX_METHOD_LEN. lia.
  - intros pth2 Hpth. rewrite start_event_path.
    apply read_cstring; [|done]. unfold MAX_PATH_LEN. lia.
  - intros hdr2 Hdx Hhdr. rewrite start_event_traceparent.
    rewrite decide_True by done.
    rewrite (read_cstring _ _ hdr2); [|unfold TRACEPARENT_LEN; lia|done].
    split; [apply (c_buffer_prefix TRACEPARENT_LEN)|].
    intros Hlen. by apply c_buffer_short.
  - intros Hdx. rewrite start_event_traceparent.
    by rewrite decide_False by (by intros ?).
Qed.

(** The theorem at the example's start followed by a later start for the
    same id with method "POST", path "/v1/sessions" and another
    well-formed header, probes of another id in between, from the empty
    tables. *)
Lemma second_start_replaces_first_witness :
  ∃ ev : http_event,
    http_events
      (run (((http_handler_start, example_start)
             :: [(function_entry, other_entry)]
             ++ (http_handler_start, later_start)
             :: [(function_exit, other_exit)])
            ++ [(http_handler_end, example_end)]) bpf_state_empty)
    = http_events
        (run ((http_handler_start, example_start)
              :: [(function_entry, other_entry)]
              ++ (http_handler_start, later_start)
              :: [(function_exit, other_exit)]) bpf_state_empty) ++ [ev]
    ∧ timestamp_ns ev = 180
    ∧ duration_ns ev = u64 (250 - 180)
    ∧ method ev = c_buffer MAX_METHOD_LEN (bytes_of "POST")
    ∧ path ev = c_buffer MAX_PATH_LEN (bytes_of "/v1/sessions")
    ∧ take 54
        (bytes_of "00-0af7651916cd43dd8448eb211c80319c-b7ad6b7169203331-01")
      `prefix_of` traceparent ev.
Proof.
  destruct (second_start_replaces_first bpf_state_empty example_start
              later_start example_end [(function_entry, other_entry)]
              [(function_exit, other_exit)])
    as (ev & Hev & _ & Hts & Hdur & Hm & Hp & Hh & _).
  - reflexivity.
  - reflexivity.
  - repeat constructor; simpl; lia.
  - repeat constructor; simpl; lia.
  - right. vm_compute. reflexivity.
  - exists ev. split_and!; [exact Hev | exact Hts | exact Hdur | | |].
    + apply Hm. vm_compute. repeat split; discriminate.
    + apply Hp. vm_compute. repeat split; discriminate.
    + apply Hh.
      * simpl. lia.
      * vm_compute. repeat split; discriminate.
Defined.

(** Whatever the first start did, once the second start has fired the
    pending record of the id is the second start's or there is none, so
    the end emits the event built from the second start or nothing; the
    first start's data never comes out. *)
Lemma second_start_or_nothing (st : bpf_state) (f1 f2 fe : firing) :
  current_pid_tgid f2 = current_pid_tgid f1 →
  current_pid_tgid fe = current_pid_tgid f1 →
  let before_end := [(http_handler_start, f1); (http_handler_start, f2)] in
  http_events (run (before_end ++ [(http_handler_end, fe)]) st)
  = http_events (run before_end st)
  ∨ http_events (run (before_end ++ [(http_handler_end, fe)]) st)
    = http_events (run before_end st) ++ [end_event fe (start_event f2)].
Proof.
  intros Hf2 Hfe before_end. unfold before_end. rewrite run_app.
  cbn [run handler].
  set (st1 := exec (trace_http_request_start f1) st).
  assert (active_requests (exec (trace_http_request_start f2) st1)
          !! current_pid_tgid fe = None
          ∨ active_requests (exec (trace_http_request_start f2) st1)
            !! current_pid_tgid fe = Some (start_event f2)) as [Hnone|Hsome].
  { rewrite Hfe, <- Hf2.
    destruct (active_requests st1 !! current_pid_tgid f2) as [e|] eqn:E.
    - right. rewrite start_stores_event by (left; by rewrite E).
      apply lookup_insert_eq.
    - destruct (decide (Z.of_nat (size (active_requests st1))
                        < max_entries active_requests_map)) as [Hroom|Hfull].
      + right. rewrite start_stores_event by (by right).
        apply lookup_insert_eq.
      + left. rewrite start_full_active by (done || lia). done. }
  - left. unfold exec at 1. by rewrite (end_exec_miss _ _ Hnone).
  - right. by rewrite (end_exec_hit _ _ _ Hsome).
Qed.

(** ** C9: a start that finds the table full *)

(** A start with a NULL header that finds the table full and its id new
    changes nothing at all. *)
Lemma start_full_null_header (f : firing) (st : bpf_state) :
  dx (regs f) = 0 →
  active_requests st !! current_pid_tgid f = None →
  max_entries active_requests_map <= Z.of_nat (size (active_requests st)) →
  exec (trace_http_request_start f) st = st.
Proof.
  intros Hdx Hnew Hfull. rewrite start_exec.
  rewrite decide_False by (intros ?; done).
  unfold exec. by rewrite update_elem_full.
Qed.

(** C9, as stated, at the full table and a start with a NULL header for a
    new id: the start is dropped and the existing records stay, but the
    whole program state is as it was, so nothing in it has been
    incremented. *)
Lemma rejected_insert_counts_nothing :
  ¬ ∃ rejects : bpf_state → Z,
      rejected_insert_claim rejects null_header_start full_state.
Proof.
  intros [rejects (_ & _ & Hrejects)].
  rewrite start_full_null_header in Hrejects.
  - lia.
  - reflexivity.
  - apply full_state_fresh. reflexivity.
  - apply full_state_is_full.
Qed.

(** C9 (amended): when [active_requests] holds its 10240 records and the id
    of a start is not among them, the start leaves [active_requests] as it
    was (every record unmodified, none evicted, the new one dropped), emits
    nothing, and leaves [trace_contexts] as it was for every other id; with
    a NULL header pointer the whole state is as it was.  The program keeps
    no capacity counter. *)
Theorem full_table_start_is_dropped (f : firing) (st : bpf_state) :
  active_requests st !! current_pid_tgid f = None →
  10240 <= Z.of_nat (size (active_requests st)) →
  let st' := exec (trace_http_request_start f) st in
  active_requests st' = active_requests st
  ∧ http_events st' = http_events st
  ∧ (∀ k, k ≠ current_pid_tgid f →
          trace_contexts st' !! k = trace_contexts st !! k)
  ∧ (dx (regs f) = 0 → st' = st).
Proof.
  intros Hnew Hfull. cbv zeta. split_and!.
  - by apply start_full_active.
  - apply start_emits_nothing.
  - intros k Hk.
    exact (proj2 (handler_other_id http_handler_start f st k
                    (not_eq_sym Hk))).
  - intros Hdx. by apply start_full_null_header.
Qed.

(** The theorem at the example's start fired on the full table. *)
Lemma full_table_start_is_dropped_witness :
  let st' := exec (trace_http_request_start example_start) full_state in
  active_requests st' = active_requests full_state
  ∧ http_events st' = http_events full_state
  ∧ (∀ k, k ≠ current_pid_tgid example_start →
          trace_contexts st' !! k = trace_contexts full_state !! k)
  ∧ (dx (regs example_start) = 0 → st' = full_state).
Proof.
  apply (full_table_start_is_dropped example_start full_state).
  - apply full_state_fresh. reflexivity.
  - apply full_state_is_full.
Defined.

(** ** C10: which time the emitted record carries *)

Lemma end_event_time_only_in_duration (f : firing) (t : Z)
      (e : http_event) :
  set_duration_ns 0 (end_event (at_time t f) e)
  = set_duration_ns 0 (end_event f e).
Proof. unfold end_event, at_time. simpl. by case_decide. Qed.

Lemma u64_recover (ts te : Z) :
  0 <= te < 2 ^ 64 → u64 (ts + u64 (te - ts)) = te.
Proof.
  intros Hte. unfold u64. rewrite Zplus_mod_idemp_r.
  replace (ts + (te - ts)) with te by lia. by apply Z.mod_small.
Qed.

(** C10: for a start that found room and the end that matches it (times
    being 64-bit values), the emitted record's [timestamp_ns] is the start
    time; [duration_ns] is the end time minus the start time; timestamp
    plus duration gives back the end time (in 64-bit arithmetic, and
    exactly when the clock did not go backwards); and an end fired at any
    other time emits the same record up to [duration_ns]. *)
Theorem emitted_timestamp_is_start_time (st : bpf_state) (fs fe : firing)
        (mid : list (probe * firing)) :
  let id := current_pid_tgid fs in
  let before_end := (http_handler_start, fs) :: mid in
  current_pid_tgid fe = id →
  Forall (λ c, current_pid_tgid c.2 ≠ id) mid →
  is_Some (active_requests st !! id)
  ∨ Z.of_nat (size (active_requests st)) < 10240 →
  0 <= ktime_ns fs < 2 ^ 64 →
  0 <= ktime_ns fe < 2 ^ 64 →
  ∃ ev : http_event,
    http_events (run (before_end ++ [(http_handler_end, fe)]) st)
    = http_events (run before_end st) ++ [ev]
    ∧ timestamp_ns ev = ktime_ns fs
    ∧ duration_ns ev = u64 (ktime_ns fe - ktime_ns fs)
    ∧ u64 (timestamp_ns ev + duration_ns ev) = ktime_ns fe
    ∧ (ktime_ns fs <= ktime_ns fe →
       timestamp_ns ev + duration_ns ev = ktime_ns fe)
    ∧ ∀ t : Z, ∃ ev' : http_event,
        http_events
          (run (before_end ++ [(http_handler_end, at_time t fe)]) st)
        = http_events (run before_end st) ++ [ev']
        ∧ set_duration_ns 0 ev' = set_duration_ns 0 ev.
Proof.
  intros id before_end Hfe Hmid Hroom Hts Hte.
  exists (end_event fe (start_event fs)).
  unfold before_end. rewrite <- !app_comm_cons.
  rewrite (start_others_end st fs fe mid Hfe Hmid Hroom). cbn [http_events].
  destruct (end_event_fields fe (start_event fs))
    as (Hstamp & _ & _ & _ & _ & _ & Hdur & _).
  destruct (start_event_scalars fs) as (Hstamp0 & _).
  rewrite Hstamp, Hdur, Hstamp0.
  split_and!; try done.
  - by apply u64_recover.
  - intros Hmono. unfold u64. rewrite Z.mod_small by lia. lia.
  - intros t. exists (end_event (at_time t fe) (start_event fs)).
    rewrite <- app_comm_cons.
    rewrite (start_others_end st fs (at_time t fe) mid Hfe Hmid Hroom).
    split; [done|]. apply end_event_time_only_in_duration.
Qed.

(** The theorem at the example's start and end, times 100 and 250. *)
Lemma emitted_timestamp_is_start_time_witness :
  ∃ ev : http_event,
    http_events
      (run (((http_handler_start, example_start)
             :: [(function_entry, other_entry)])
            ++ [(http_handler_end, example_end)]) bpf_state_empty)
    = http_events
        (run ((http_handler_start, example_start)
              :: [(function_entry, other_entry)]) bpf_state_empty) ++ [ev]
    ∧ timestamp_ns ev = 100
    ∧ duration_ns ev = u64 (250 - 100)
    ∧ u64 (timestamp_ns ev + duration_ns ev) = 250
    ∧ (100 <= 250 → timestamp_ns ev + duration_ns ev = 250)
    ∧ ∀ t : Z, ∃ ev' : http_event,
        http_events
          (run (((http_handler_start, example_start)
                 :: [(function_entry, other_entry)])
                ++ [(http_handler_end, at_time t example_end)])
             bpf_state_empty)
        = http_events
            (run ((http_handler_start, example_start)
                  :: [(function_entry, other_entry)]) bpf_state_empty)
          ++ [ev']
        ∧ set_duration_ns 0 ev' = set_duration_ns 0 ev.
Proof.
  apply (emitted_timestamp_is_start_time bpf_state_empty example_start
           example_end [(function_entry, other_entry)]).
  - reflexivity.
  - repeat constructor; simpl; lia.
  - right. vm_compute. reflexivity.
  - simpl. lia.
  - simpl. lia.
Defined.

(** * Further properties of the probes *)

(** ** One step of any probe *)

Lemma exit_exec_hit' (f : firing) (st : bpf_state) (event : http_event) :
  active_requests st !! current_pid_tgid f = Some event →
  exec (trace_function_exit f) st
  = mk_bpf_state (http_events st ++ [exit_event f event])
      (delete (current_pid_tgid f) (active_requests st))
      (trace_contexts st).
Proof. apply exit_exec_hit. Qed.

(** What a probe that can emit does: with a pending record for its id it
    emits one record and removes the pending one; without, it changes
    nothing. *)
Lemma emitting_step (p : probe) (f : firing) (st : bpf_state) :
  emits p = true →
  match active_requests st !! current_pid_tgid f with
  | Some e =>
      ∃ ev, http_events (exec (handler p f) st) = http_events st ++ [ev]
            ∧ active_requests (exec (handler p f) st)
              = delete (current_pid_tgid f) (active_requests st)
            ∧ (ev = end_event f e ∨ ev = exit_event f e)
  | None => exec (handler p f) st = st
  end.
Proof.
  intros Hp.
  destruct (active_requests st !! current_pid_tgid f) as [e|] eqn:E;
    destruct p; try discriminate Hp; cbn [handler].
  - exists (end_event f e). rewrite (end_exec_hit f st e E).
    split_and!; [done | done | by left].
  - exists (exit_event f e). rewrite (exit_exec_hit' f st e E).
    split_and!; [done | done | by right].
  - unfold exec. by rewrite end_exec_miss.
  - unfold exec. by rewrite exit_exec_miss.
Qed.

(** The probes that cannot emit leave [http_events] as it was. *)
Lemma silent_step (p : probe) (f : firing) (st : bpf_state) :
  emits p = false →
  http_events (exec (handler p f) st) = http_events st.
Proof.
  intros Hp. destruct p; try discriminate Hp; cbn [handler].
  - apply start_emits_nothing.
  - rewrite entry_exec. apply update_active_events.
  - unfold exec. by rewrite tcp_sendmsg_exec.
  - done.
Qed.

(** Every step appends at most one record to [http_events]. *)
Lemma step_appends (p : probe) (f : firing) (st : bpf_state) :
  ∃ evs, http_events (exec (handler p f) st) = http_events st ++ evs
         ∧ (length evs ≤ if emits p then 1 else 0)%nat.
Proof.
  destruct (emits p) eqn:Hp.
  - pose proof (emitting_step p f st Hp) as H.
    destruct (active_requests st !! current_pid_tgid f) as [e|].
    + destruct H as (ev & -> & _). exists [ev]. split; [done | simpl; lia].
    + rewrite H. exists []. rewrite app_nil_r. split; [done | simpl; lia].
  - exists []. rewrite app_nil_r.
    split; [by apply silent_step | simpl; lia].
Qed.

(** ** X1: the TCP probes are read-only *)

Lemma network_step (p : probe) (f : firing) (st : bpf_state) :
  network_probe p = true → exec (handler p f) st = st.
Proof.
  intros Hp. destruct p; try discriminate Hp; cbn [handler].
  - unfold exec. by rewrite tcp_sendmsg_exec.
  - done.
Qed.

Lemma network_run (hooks : list (probe * firing)) :
  Forall (λ c, network_probe c.1 = true) hooks →
  ∀ st, run hooks st = st.
Proof.
  induction 1 as [|[p f] hooks Hp _ IH]; intros st; cbn [run]; [done|].
  rewrite (network_step p f st Hp). apply IH.
Qed.

(** X1: firings of [trace_tcp_sendmsg] and [trace_tcp_recvmsg], for any id
    and anywhere in a run, change nothing: the run reaches the state it
    reaches without them.  In particular the lookup of the send probe does
    not consume the context it finds. *)
Theorem network_probes_change_nothing
        (before hooks after : list (probe * firing)) (st : bpf_state) :
  Forall (λ c, network_probe c.1 = true) hooks →
  run (before ++ hooks ++ after) st = run (before ++ after) st.
Proof.
  intros Hhooks. rewrite !run_app. by rewrite (network_run hooks Hhooks).
Qed.

(** The theorem at the example's start and end with a send and a receive
    for the same id in between. *)
Lemma network_probes_change_nothing_witness :
  run ([(http_handler_start, example_start)]
       ++ [(tcp_sendmsg, example_start); (tcp_recvmsg, example_end)]
       ++ [(http_handler_end, example_end)]) bpf_state_empty
  = run ([(http_handler_start, example_start)]
         ++ [(http_handler_end, example_end)]) bpf_state_empty.
Proof.
  apply (network_probes_change_nothing
           [(http_handler_start, example_start)]
           [(tcp_sendmsg, example_start); (tcp_recvmsg, example_end)]
           [(http_handler_end, example_end)] bpf_state_empty).
  repeat constructor.
Defined.

(** ** X2: every probe returns 0 *)

(** X2: whatever the state, the registers and the memory (unreadable
    arguments, a missing pending record, a full table), the probe returns
    0. *)
Theorem probes_return_zero (p : probe) (f : firing) (st : bpf_state) :
  eval (handler p f) st = 0.
Proof.
  destruct p; cbn [handler]; unfold eval.
  - unfold trace_http_request_start, mbind, prog_bind, mret, prog_ret.
    case_decide.
    + destruct (bpf_map_update_elem trace_contexts_map _ _ st) as [r st1].
      by destruct (bpf_map_update_elem active_requests_map _ _ st1).
    + by destruct (bpf_map_update_elem active_requests_map _ _ st).
  - destruct (active_requests st !! current_pid_tgid f) as [e|] eqn:E.
    + unfold trace_http_request_end.
      unfold mbind, prog_bind, mret, prog_ret, bpf_map_lookup_elem, gets.
      cbn [contents active_requests_map]. rewrite E.
      unfold store_elem, modify, bpf_perf_event_output.
      destruct (bpf_map_delete_elem active_requests_map _ _) as [r st1].
      by destruct (bpf_map_delete_elem trace_contexts_map _ st1).
    + by rewrite end_exec_miss.
  - unfold trace_function_entry, mbind, prog_bind, mret, prog_ret.
    by destruct (bpf_map_update_elem active_requests_map _ _ st).
  - destruct (active_requests st !! current_pid_tgid f) as [e|] eqn:E.
    + unfold trace_function_exit.
      unfold mbind, prog_bind, mret, prog_ret, bpf_map_lookup_elem, gets.
      cbn [contents active_requests_map]. rewrite E.
      unfold store_elem, modify, bpf_perf_event_output.
      by destruct (bpf_map_delete_elem active_requests_map _ _).
    + by rewrite exit_exec_miss.
  - by rewrite tcp_sendmsg_exec.
  - done.
Qed.

(** ** X3: records are only ever appended, one per end or exit at most *)

(** X3: over any run from any state, the records already handed to user
    space stay where they are, in order, and the run adds at most as many
    records as it has firings of the end and exit probes. *)
Theorem events_are_appended (calls : list (probe * firing))
        (st : bpf_state) :
  ∃ evs, http_events (run calls st) = http_events st ++ evs
         ∧ (length evs ≤ end_firings calls)%nat.
Proof.
  revert st. induction calls as [|[p f] calls IH]; intros st; cbn [run].
  - exists []. by rewrite app_nil_r.
  - destruct (IH (exec (handler p f) st)) as (evs2 & -> & Hlen2).
    destruct (step_appends p f st) as (evs1 & -> & Hlen1).
    exists (evs1 ++ evs2). rewrite app_assoc. split; [done|].
    rewrite length_app. cbn [end_firings]. lia.
Qed.

(** ** X4: a pending record completes at most once *)

(** X4: after an end or exit probe has fired for an id, a further end or
    exit for that id, with only probes of other ids in between, changes
    nothing and emits nothing, whether the first one found a pending
    record or not. *)
Theorem pending_record_completes_once (st : bpf_state) (p1 p2 : probe)
        (f1 f2 : firing) (mid : list (probe * firing)) :
  emits p1 = true →
  emits p2 = true →
  current_pid_tgid f2 = current_pid_tgid f1 →
  Forall (λ c, current_pid_tgid c.2 ≠ current_pid_tgid f1) mid →
  run ((p1, f1) :: mid ++ [(p2, f2)]) st = run ((p1, f1) :: mid) st.
Proof.
  intros Hp1 Hp2 Hid Hmid.
  change ((p1, f1) :: mid ++ [(p2, f2)])
    with (((p1, f1) :: mid) ++ [(p2, f2)]).
  rewrite run_app. cbn [run].
  set (st1 := exec (handler p1 f1) st).
  assert (active_requests st1 !! current_pid_tgid f1 = None) as Hgone.
  { unfold st1. pose proof (emitting_step p1 f1 st Hp1) as H.
    destruct (active_requests st !! current_pid_tgid f1) as [e|] eqn:E.
    - destruct H as (ev & _ & -> & _). apply lookup_delete_eq.
    - by rewrite H. }
  assert (active_requests (run mid st1) !! current_pid_tgid f2 = None)
    as Hstill.
  { rewrite Hid. by destruct (run_other_ids mid _ Hmid st1) as [-> _]. }
  pose proof (emitting_step p2 f2 (run mid st1) Hp2) as H.
  by rewrite Hstill in H.
Qed.

(** The theorem at the example's start and end from the empty tables,
    followed by a generic entry of another id and a generic exit for the
    example's id. *)
Lemma pending_record_completes_once_witness :
  run ((http_handler_end, example_end)
       :: [(function_entry, other_entry)] ++ [(function_exit, example_end)])
    (run [(http_handler_start, example_start)] bpf_state_empty)
  = run ((http_handler_end, example_end) :: [(function_entry, other_entry)])
      (run [(http_handler_start, example_start)] bpf_state_empty).
Proof.
  apply (pending_record_completes_once
           (run [(http_handler_start, example_start)] bpf_state_empty)
           http_handler_end function_exit example_end example_end
           [(function_entry, other_entry)]).
  - reflexivity.
  - reflexivity.
  - reflexivity.
  - repeat constructor; simpl; lia.
Defined.

(** ** X5: the tables never grow past [max_entries] *)

Lemma size_delete_le {V} (k : Z) (m : gmap Z V) :
  (size (delete k m) ≤ size m)%nat.
Proof. rewrite map_size_delete. destruct (m !! k); simpl; lia. Qed.

Lemma update_active_size (key : Z) (e : http_event) (st : bpf_state) :
  Z.of_nat (size (active_requests st)) <= max_entries active_requests_map →
  Z.of_nat
    (size (active_requests
             (exec (bpf_map_update_elem active_requests_map key e) st)))
  <= max_entries active_requests_map.
Proof.
  intros Hle. unfold exec, bpf_map_update_elem.
  cbn [contents active_requests_map].
  destruct (active_requests st !! key) as [old|] eqn:E.
  - cbn [snd with_contents active_requests active_requests_map].
    by rewrite map_size_insert_Some by (by rewrite E).
  - case_decide; [|done]. cbn [snd with_contents active_requests active_requests_map].
    rewrite map_size_insert_None by done.
    cbn [max_entries] in *. lia.
Qed.

Lemma update_contexts_size (key : Z) (c : trace_context) (st : bpf_state) :
  Z.of_nat (size (trace_contexts st)) <= max_entries trace_contexts_map →
  Z.of_nat
    (size (trace_contexts
             (exec (bpf_map_update_elem trace_contexts_map key c) st)))
  <= max_entries trace_contexts_map.
Proof.
  intros Hle. unfold exec, bpf_map_update_elem.
  cbn [contents trace_contexts_map].
  destruct (trace_contexts st !! key) as [old|] eqn:E.
  - cbn [snd with_contents trace_contexts trace_contexts_map].
    by rewrite map_size_insert_Some by (by rewrite E).
  - case_decide; [|done]. cbn [snd with_contents trace_contexts trace_contexts_map].
    rewrite map_size_insert_None by done.
    cbn [max_entries] in *. lia.
Qed.

Lemma step_within_capacity (p : probe) (f : firing) (st : bpf_state) :
  Z.of_nat (size (active_requests st)) <= max_entries active_requests_map
  ∧ Z.of_nat (size (trace_contexts st)) <= max_entries trace_contexts_map →
  Z.of_nat (size (active_requests (exec (handler p f) st)))
  <= max_entries active_requests_map
  ∧ Z.of_nat (size (trace_contexts (exec (handler p f) st)))
    <= max_entries trace_contexts_map.
Proof.
  intros [Ha Hc]. destruct p; cbn [handler].
  - rewrite start_exec. fold (after_context_update f st). split.
    + apply update_active_size. by rewrite after_context_update_active.
    + rewrite update_active_contexts. unfold after_context_update.
      case_decide; [|done]. by apply update_contexts_size.
  - destruct (active_requests st !! current_pid_tgid f) as [e|] eqn:E.
    + rewrite (end_exec_hit f st e E).
      cbn [active_requests trace_contexts].
      pose proof (size_delete_le (current_pid_tgid f) (active_requests st)).
      pose proof (size_delete_le (current_pid_tgid f) (trace_contexts st)).
      lia.
    + unfold exec. by rewrite end_exec_miss.
  - rewrite entry_exec. split.
    + by apply update_active_size.
    + by rewrite update_active_contexts.
  - destruct (active_requests st !! current_pid_tgid f) as [e|] eqn:E.
    + rewrite (exit_exec_hit f st e E).
      cbn [active_requests trace_contexts].
      pose proof (size_delete_le (current_pid_tgid f) (active_requests st)).
      lia.
    + unfold exec. by rewrite exit_exec_miss.
  - unfold exec. by rewrite tcp_sendmsg_exec.
  - done.
Qed.

Lemma run_within_capacity (calls : list (probe * firing)) :
  ∀ st,
    Z.of_nat (size (active_requests st)) <= max_entries active_requests_map
    ∧ Z.of_nat (size (trace_contexts st))
      <= max_entries trace_contexts_map →
    Z.of_nat (size (active_requests (run calls st)))
    <= max_entries active_requests_map
    ∧ Z.of_nat (size (trace_contexts (run calls st)))
      <= max_entries trace_contexts_map.
Proof.
  induction calls as [|[p f] calls IH]; intros st Hst; cbn [run]; [done|].
  apply IH. by apply step_within_capacity.
Qed.

(** X5: in every state the program reaches from the empty tables, by any
    run of its six probes, [active_requests] and [trace_contexts] each hold
    at most 10240 entries. *)
Theorem tables_stay_within_capacity (calls : list (probe * firing)) :
  Z.of_nat (size (active_requests (run calls bpf_state_empty))) <= 10240
  ∧ Z.of_nat (size (trace_contexts (run calls bpf_state_empty))) <= 10240.
Proof.
  apply (run_within_capacity calls bpf_state_empty).
  cbn [active_requests trace_contexts bpf_state_empty].
  rewrite !map_size_empty. cbn [max_entries active_requests_map
                                 trace_contexts_map]. lia.
Qed.

(** ** X6: the generic entry and exit pair *)

Lemma entry_stores_event (f : firing) (st : bpf_state) :
  is_Some (active_requests st !! current_pid_tgid f)
  ∨ Z.of_nat (size (active_requests st)) < max_entries active_requests_map →
  exec (trace_function_entry f) st
  = mk_bpf_state (http_events st)
      (<[current_pid_tgid f := entry_event f]> (active_requests st))
      (trace_contexts st).
Proof.
  intros Hroom. rewrite entry_exec. fold (entry_event f). unfold exec.
  destruct Hroom as [Hin | Hroom].
  - by rewrite update_elem_present.
  - by rewrite update_elem_room.
Qed.

(** X6: when [active_requests] holds the id or has room, a generic entry
    for [id], probes of other ids, and a generic exit for [id] emit exactly
    one record at the exit: its timestamp is the entry time, its duration
    the exit time minus the entry time in 64-bit unsigned arithmetic, its
    pid and tid the halves of [id]; its method, path and traceparent are
    all NUL and its status code and content length 0.  The exit removes
    the pending record and leaves [trace_contexts] alone. *)
Theorem generic_entry_exit_pair (st : bpf_state) (fs fe : firing)
        (mid : list (probe * firing)) :
  let id := current_pid_tgid fs in
  let before_exit := (function_entry, fs) :: mid in
  current_pid_tgid fe = id →
  Forall (λ c, current_pid_tgid c.2 ≠ id) mid →
  is_Some (active_requests st !! id)
  ∨ Z.of_nat (size (active_requests st)) < 10240 →
  ∃ ev : http_event,
    http_events (run (before_exit ++ [(function_exit, fe)]) st)
    = http_events (run before_exit st) ++ [ev]
    ∧ timestamp_ns ev = ktime_ns fs
    ∧ duration_ns ev = u64 (ktime_ns fe - ktime_ns fs)
    ∧ pid ev = u32 (Z.shiftr id 32)
    ∧ tid ev = u32 (Z.land id 0xFFFFFFFF)
    ∧ method ev = zeroed MAX_METHOD_LEN
    ∧ path ev = zeroed MAX_PATH_LEN
    ∧ traceparent ev = zeroed TRACEPARENT_LEN
    ∧ status_code ev = 0
    ∧ content_length ev = 0
    ∧ active_requests (run (before_exit ++ [(function_exit, fe)]) st) !! id
      = None
    ∧ trace_contexts (run (before_exit ++ [(function_exit, fe)]) st)
      = trace_contexts (run before_exit st).
Proof.
  intros id before_exit Hfe Hmid Hroom.
  exists (exit_event fe (entry_event fs)).
  unfold before_exit. rewrite run_app. cbn [run handler].
  set (st1 := exec (trace_function_entry fs) st).
  assert (active_requests (run mid st1) !! current_pid_tgid fe
          = Some (entry_event fs)) as Hpending.
  { rewrite Hfe. destruct (run_other_ids mid id Hmid st1) as [-> _].
    unfold st1. rewrite entry_stores_event by done.
    cbn [active_requests]. apply lookup_insert_eq. }
  rewrite (exit_exec_hit' fe _ _ Hpending).
  cbn [http_events active_requests trace_contexts].
  rewrite Hfe. split_and!; try done. apply lookup_delete_eq.
Qed.

(** The theorem at a generic entry and exit from the empty tables, with
    the example's start for another id in between. *)
Lemma generic_entry_exit_pair_witness :
  ∃ ev : http_event,
    http_events
      (run (((function_entry, other_entry)
             :: [(http_handler_start, example_start)])
            ++ [(function_exit, other_exit)]) bpf_state_empty)
    = http_events
        (run ((function_entry, other_entry)
              :: [(http_handler_start, example_start)]) bpf_state_empty)
      ++ [ev]
    ∧ timestamp_ns ev = 120
    ∧ duration_ns ev = u64 (130 - 120)
    ∧ pid ev = u32 (Z.shiftr 0x2000000B 32)
    ∧ tid ev = u32 (Z.land 0x2000000B 0xFFFFFFFF)
    ∧ method ev = zeroed MAX_METHOD_LEN
    ∧ path ev = zeroed MAX_PATH_LEN
    ∧ traceparent ev = zeroed TRACEPARENT_LEN
    ∧ status_code ev = 0
    ∧ content_length ev = 0
    ∧ active_requests
        (run (((function_entry, other_entry)
               :: [(http_handler_start, example_start)])
              ++ [(function_exit, other_exit)]) bpf_state_empty)
      !! 0x2000000B = None
    ∧ trace_contexts
        (run (((function_entry, other_entry)
               :: [(http_handler_start, example_start)])
              ++ [(function_exit, other_exit)]) bpf_state_empty)
      = trace_contexts
          (run ((function_entry, other_entry)
                :: [(http_handler_start, example_start)]) bpf_state_empty).
Proof.
  apply (generic_entry_exit_pair bpf_state_empty other_entry other_exit
           [(http_handler_start, example_start)]).
  - reflexivity.
  - repeat constructor; simpl; lia.
  - right. vm_compute. reflexivity.
Defined.

(** ** X7: two interleaved requests *)

(** A start that finds its id or room, in closed form. *)
Lemma start_room_state (f : firing) (st : bpf_state) :
  is_Some (active_requests st !! current_pid_tgid f)
  ∨ Z.of_nat (size (active_requests st)) < max_entries active_requests_map →
  exec (trace_http_request_start f) st
  = mk_bpf_state (http_events st)
      (<[current_pid_tgid f := start_event f]> (active_requests st))
      (trace_contexts (after_context_update f st)).
Proof.
  intros Hroom. rewrite start_exec. fold (after_context_update f st).
  unfold exec.
  assert (is_Some (contents active_requests_map (after_context_update f st)
                   !! current_pid_tgid f)
          ∨ Z.of_nat (size (contents active_requests_map
                              (after_context_update f st)))
            < max_entries active_requests_map) as [Hin | Hlt].
  { cbn [contents active_requests_map].
    by rewrite after_context_update_active. }
  - rewrite update_elem_present by done.
    cbn [snd with_contents contents active_requests_map].
    by rewrite after_context_update_active, after_context_update_events.
  - rewrite update_elem_room by done.
    cbn [snd with_contents contents active_requests_map].
    by rewrite after_context_update_active, after_context_update_events.
Qed.

(** Deleting the id's context after the start's update gives what deleting
    it before gives. *)
Lemma delete_after_context_update (f : firing) (st : bpf_state) :
  delete (current_pid_tgid f) (trace_contexts (after_context_update f st))
  = delete (current_pid_tgid f) (trace_contexts st).
Proof.
  unfold after_context_update. case_decide; [|done].
  destruct (update_elem_cases trace_contexts_map (current_pid_tgid f)
              (start_context f) st) as [-> | ->]; [done|].
  cbn [trace_contexts with_contents contents trace_contexts_map].
  apply delete_insert_eq.
Qed.

(** A start that finds room followed at once by its end. *)
Lemma start_end_state (fs fe : firing) (st : bpf_state) :
  current_pid_tgid fe = current_pid_tgid fs →
  is_Some (active_requests st !! current_pid_tgid fs)
  ∨ Z.of_nat (size (active_requests st)) < max_entries active_requests_map →
  run [(http_handler_start, fs); (http_handler_end, fe)] st
  = mk_bpf_state (http_events st ++ [end_event fe (start_event fs)])
      (delete (current_pid_tgid fs) (active_requests st))
      (delete (current_pid_tgid fs) (trace_contexts st)).
Proof.
  intros Hid Hroom. cbn [run handler].
  rewrite (start_room_state fs st Hroom).
  rewrite (end_exec_hit fe _ (start_event fs)).
  - cbn [http_events active_requests trace_contexts]. rewrite Hid.
    by rewrite delete_insert_eq, delete_after_context_update.
  - cbn [active_requests]. rewrite Hid. apply lookup_insert_eq.
Qed.

(** X7: two requests on different ids, with room for both records:
    start A, start B, end A, end B reaches the same state as request A run
    to its end followed by request B, and emits A's record then B's, each
    built from its own start and end only. *)
Theorem interleaved_requests_do_not_mix (st : bpf_state)
        (sa ea sb eb : firing) :
  current_pid_tgid ea = current_pid_tgid sa →
  current_pid_tgid eb = current_pid_tgid sb →
  current_pid_tgid sa ≠ current_pid_tgid sb →
  Z.of_nat (size (active_requests st)) + 2 <= 10240 →
  run [(http_handler_start, sa); (http_handler_start, sb);
       (http_handler_end, ea); (http_handler_end, eb)] st
  = run [(http_handler_start, sa); (http_handler_end, ea);
         (http_handler_start, sb); (http_handler_end, eb)] st
  ∧ http_events
      (run [(http_handler_start, sa); (http_handler_start, sb);
            (http_handler_end, ea); (http_handler_end, eb)] st)
    = http_events st
      ++ [end_event ea (start_event sa); end_event eb (start_event sb)].
Proof.
  intros Ha Hb Hne Hroom.
  set (ida := current_pid_tgid sa) in *.
  set (idb := current_pid_tgid sb) in *.
  (* the sequential run *)
  assert (run [(http_handler_start, sa); (http_handler_end, ea);
               (http_handler_start, sb); (http_handler_end, eb)] st
          = mk_bpf_state
              (http_events st
               ++ [end_event ea (start_event sa);
                   end_event eb (start_event sb)])
              (delete idb (delete ida (active_requests st)))
              (delete idb (delete ida (trace_contexts st)))) as Hseq.
  { change [(http_handler_start, sa); (http_handler_end, ea);
            (http_handler_start, sb); (http_handler_end, eb)]
      with ([(http_handler_start, sa); (http_handler_end, ea)]
            ++ [(http_handler_start, sb); (http_handler_end, eb)]).
    rewrite run_app.
    rewrite (start_end_state sa ea st Ha)
      by (right; cbn [max_entries active_requests_map]; lia).
    rewrite (start_end_state sb eb _ Hb).
    - cbn [http_events active_requests trace_contexts].
      by rewrite <- app_assoc.
    - right. cbn [active_requests max_entries active_requests_map].
      pose proof (size_delete_le ida (active_requests st)).
      fold ida. lia. }
  (* the interleaved run *)
  assert (run [(http_handler_start, sa); (http_handler_start, sb);
               (http_handler_end, ea); (http_handler_end, eb)] st
          = mk_bpf_state
              (http_events st
               ++ [end_event ea (start_event sa);
                   end_event eb (start_event sb)])
              (delete idb (delete ida (active_requests st)))
              (delete idb (delete ida (trace_contexts st)))) as Hint.
  { cbn [run handler].
    rewrite (start_room_state sa st)
      by (right; cbn [max_entries active_requests_map]; lia).
    set (st1 := mk_bpf_state _ _ _).
    rewrite (start_room_state sb st1).
    2:{ right. unfold st1. cbn [active_requests max_entries
                                active_requests_map].
        pose proof (map_size_insert ida (start_event sa)
                      (active_requests st)) as Hsz.
        fold ida. destruct (active_requests st !! ida);
          rewrite Hsz; unfold id; lia. }
    set (st2 := mk_bpf_state _ _ _).
    rewrite (end_exec_hit ea st2 (start_event sa)).
    2:{ unfold st2, st1. cbn [active_requests]. fold idb. rewrite Ha.
        rewrite lookup_insert_ne by (intros E; by apply Hne).
        fold ida. apply lookup_insert_eq. }
    set (st3 := mk_bpf_state _ _ _).
    rewrite (end_exec_hit eb st3 (start_event sb)).
    2:{ unfold st3, st2. cbn [active_requests]. rewrite Ha, Hb.
        fold ida idb. rewrite lookup_delete_ne by done.
        apply lookup_insert_eq. }
    unfold st3, st2. cbn [http_events active_requests trace_contexts].
    rewrite Ha, Hb. fold ida idb. f_equal.
    - unfold st1. cbn [http_events]. by rewrite <- app_assoc.
    - rewrite (delete_delete _ idb ida), delete_insert_eq.
      unfold st1. cbn [active_requests]. fold ida.
      by rewrite (delete_delete _ ida idb), delete_insert_eq.
    - rewrite (delete_delete _ idb ida).
      unfold idb at 1 2. rewrite delete_after_context_update.
      fold idb. unfold st1. cbn [trace_contexts].
      rewrite (delete_delete _ ida idb).
      unfold ida at 1 2. rewrite delete_after_context_update. done. }
  split.
  - by rewrite Hint, Hseq.
  - by rewrite Hint.
Qed.

(** The theorem at the example's request and a second request on another
    id, from the empty tables. *)
Lemma interleaved_requests_do_not_mix_witness :
  run [(http_handler_start, example_start); (http_handler_start, other_start);
       (http_handler_end, example_end); (http_handler_end, other_end)]
    bpf_state_empty
  = run [(http_handler_start, example_start); (http_handler_end, example_end);
         (http_handler_start, other_start); (http_handler_end, other_end)]
      bpf_state_empty
  ∧ http_events
      (run [(http_handler_start, example_start);
            (http_handler_start, other_start);
            (http_handler_end, example_end); (http_handler_end, other_end)]
         bpf_state_empty)
    = http_events bpf_state_empty
      ++ [end_event example_end (start_event example_start);
          end_event other_end (start_event other_start)].
Proof.
  apply (interleaved_requests_do_not_mix bpf_state_empty example_start
           example_end other_start other_end).
  - reflexivity.
  - reflexivity.
  - simpl. lia.
  - vm_compute. discriminate.
Defined.

(** ** X8, X9, X10: what the tables and the emitted records always hold *)

Lemma last_nul_then_zeros (l : list Z) (n : nat) :
  last ((l ++ [0]) ++ replicate n 0) = Some 0.
Proof.
  destruct n as [|n].
  - simpl. rewrite app_nil_r. apply last_snoc.
  - rewrite replicate_S_end, app_assoc. apply last_snoc.
Qed.

Lemma last_zeroed (n : nat) : (0 < n)%nat → last (zeroed n) = Some 0.
Proof.
  intros Hn. destruct n as [|n]; [lia|]. unfold zeroed.
  rewrite replicate_S_end. apply last_snoc.
Qed.

Lemma zeroed_nul_terminated (n : nat) :
  (0 < n)%nat → nul_terminated n (zeroed n).
Proof.
  intros Hn. split; [apply length_replicate | by apply last_zeroed].
Qed.

Lemma strncpy_nofault_nonempty (m : memory) (p : Z) (n : nat)
      (bs : list Z) :
  (0 < n)%nat → Helper.strncpy_nofault m p n = Some bs → bs ≠ [].
Proof.
  intros Hn. destruct n as [|n]; [lia|]. simpl.
  destruct (m p) as [c|]; [|done].
  destruct (decide (c = 0)); [by intros [= <-]|].
  destruct (Helper.strncpy_nofault m (p + 1) n); simpl; [|done].
  by intros [= <-].
Qed.

(** Whatever the memory holds or refuses, a string read into a zeroed
    array leaves the array with its size and a NUL in its last byte. *)
Lemma read_str_nul_terminated (m : memory) (p : Z) (size : nat) :
  (0 < size)%nat →
  nul_terminated size
    (Helper.bpf_probe_read_str m (zeroed size) size p).1.
Proof.
  intros Hsize. split.
  { apply bpf_probe_read_str_length. apply length_replicate. }
  unfold Helper.bpf_probe_read_str.
  destruct (Helper.strncpy_nofault m p size) as [bs|] eqn:E; cbn [fst].
  - pose proof (strncpy_nofault_nonempty m p size bs Hsize E) as Hne.
    unfold Helper.nul_terminate. destruct bs as [|b bs]; [done|].
    unfold zeroed. rewrite drop_replicate. apply last_nul_then_zeros.
  - unfold zeroed. rewrite drop_replicate.
    replace (size - size)%nat with 0%nat by lia. simpl.
    rewrite app_nil_r. by apply last_zeroed.
Qed.

Lemma u16_range (x : Z) : 0 <= u16 x < 2 ^ 16.
Proof. unfold u16. apply Z.mod_pos_bound. lia. Qed.
Lemma u32_range (x : Z) : 0 <= u32 x < 2 ^ 32.
Proof. unfold u32. apply Z.mod_pos_bound. lia. Qed.
Lemma u64_range (x : Z) : 0 <= u64 x < 2 ^ 64.
Proof. unfold u64. apply Z.mod_pos_bound. lia. Qed.

Lemma start_event_in_layout (f : firing) :
  record_in_layout (start_event f)
  ∧ keyed_by (current_pid_tgid f) (start_event f).
Proof.
  destruct (start_event_scalars f) as (_ & Hpid & Htid & Hst & Hdur & Hcl).
  unfold record_in_layout, keyed_by.
  rewrite Hpid, Htid, Hst, Hdur, Hcl.
  rewrite start_event_method, start_event_path, start_event_traceparent.
  split_and!; try done; try apply u32_range; try lia.
  - apply read_str_nul_terminated. unfold MAX_METHOD_LEN. lia.
  - apply read_str_nul_terminated. unfold MAX_PATH_LEN. lia.
  - case_decide.
    + apply read_str_nul_terminated. unfold TRACEPARENT_LEN. lia.
    + apply zeroed_nul_terminated. unfold TRACEPARENT_LEN. lia.
Qed.

Lemma entry_event_in_layout (f : firing) :
  record_in_layout (entry_event f)
  ∧ keyed_by (current_pid_tgid f) (entry_event f).
Proof.
  unfold record_in_layout, keyed_by, entry_event.
  cbn [set_tid set_pid set_timestamp_ns http_event_zero method path
       traceparent pid tid status_code duration_ns content_length].
  split_and!; try apply u32_range; try lia; try reflexivity;
    apply zeroed_nul_terminated; unfold MAX_METHOD_LEN, MAX_PATH_LEN,
    TRACEPARENT_LEN; lia.
Qed.

Lemma read_kernel_u32_range (m : memory) (p : Z) :
  0 <= (Helper.bpf_probe_read_kernel_u32 m p).1 < 2 ^ 32.
Proof.
  unfold Helper.bpf_probe_read_kernel_u32.
  destruct (m p), (m (p + 1)), (m (p + 2)), (m (p + 3)); cbn [fst];
    try apply u32_range; lia.
Qed.

Lemma end_event_in_layout (f : firing) (e : http_event) :
  record_in_layout e → record_in_layout (end_event f e).
Proof.
  intros (Hm & Hp & Ht & Hpid & Htid & _ & _ & Hcl).
  unfold record_in_layout, end_event.
  case_decide;
    cbn [set_content_length set_status_code set_duration_ns method path
         traceparent pid tid status_code duration_ns content_length];
    split_and!; try done; try apply u16_range; try apply u64_range;
    try apply read_kernel_u32_range; lia.
Qed.

Lemma exit_event_in_layout (f : firing) (e : http_event) :
  record_in_layout e → record_in_layout (exit_event f e).
Proof.
  intros (Hm & Hp & Ht & Hpid & Htid & Hst & _ & Hcl).
  unfold record_in_layout, exit_event.
  cbn [set_duration_ns method path traceparent pid tid status_code
       duration_ns content_length].
  split_and!; try done; try apply u64_range; lia.
Qed.

Lemma start_context_in_layout (f : firing) :
  context_in_layout (start_context f).
Proof.
  unfold context_in_layout, start_context, parse_traceparent.
  cbn [snd default set_span_id set_trace_id trace_context_zero trace_id
       span_id flags].
  split_and!; [| | done]; apply read_str_nul_terminated; lia.
Qed.

(** What the start and entry probes can do to [active_requests]. *)
Lemma start_active_cases (f : firing) (st : bpf_state) :
  active_requests (exec (trace_http_request_start f) st)
  = active_requests st
  ∨ active_requests (exec (trace_http_request_start f) st)
    = <[current_pid_tgid f := start_event f]> (active_requests st).
Proof.
  rewrite start_exec. fold (after_context_update f st).
  destruct (update_elem_cases active_requests_map (current_pid_tgid f)
              (start_event f) (after_context_update f st)) as [-> | ->].
  - left. apply after_context_update_active.
  - right. cbn [active_requests with_contents contents
                active_requests_map].
    by rewrite after_context_update_active.
Qed.

Lemma entry_active_cases (f : firing) (st : bpf_state) :
  active_requests (exec (trace_function_entry f) st) = active_requests st
  ∨ active_requests (exec (trace_function_entry f) st)
    = <[current_pid_tgid f := entry_event f]> (active_requests st).
Proof.
  rewrite entry_exec. fold (entry_event f).
  destruct (update_elem_cases active_requests_map (current_pid_tgid f)
              (entry_event f) st) as [-> | ->]; [by left | by right].
Qed.

(** What any probe can do to [trace_contexts]. *)
Lemma step_contexts_cases (p : probe) (f : firing) (st : bpf_state) :
  trace_contexts (exec (handler p f) st) = trace_contexts st
  ∨ trace_contexts (exec (handler p f) st)
    = delete (current_pid_tgid f) (trace_contexts st)
  ∨ (p = http_handler_start ∧ dx (regs f) ≠ 0
     ∧ trace_contexts (exec (handler p f) st)
       = <[current_pid_tgid f := start_context f]> (trace_contexts st)).
Proof.
  destruct p; cbn [handler].
  - rewrite start_exec, update_active_contexts. case_decide; [|by left].
    destruct (update_elem_cases trace_contexts_map (current_pid_tgid f)
                (start_context f) st) as [-> | ->]; [by left|].
    right. right. done.
  - destruct (active_requests st !! current_pid_tgid f) as [e|] eqn:E.
    + rewrite (end_exec_hit f st e E). right. by left.
    + left. unfold exec. by rewrite end_exec_miss.
  - left. rewrite entry_exec. apply update_active_contexts.
  - left. apply exit_keeps_contexts.
  - left. unfold exec. by rewrite tcp_sendmsg_exec.
  - by left.
Qed.

(** One step keeps the three facts below; they hold of the empty
    tables. *)
Lemma step_keeps_layout (p : probe) (f : firing) (st : bpf_state) :
  Forall record_in_layout (http_events st)
  ∧ map_Forall (λ k e, record_in_layout e ∧ keyed_by k e)
      (active_requests st)
  ∧ map_Forall (λ _ c, context_in_layout c) (trace_contexts st) →
  Forall record_in_layout (http_events (exec (handler p f) st))
  ∧ map_Forall (λ k e, record_in_layout e ∧ keyed_by k e)
      (active_requests (exec (handler p f) st))
  ∧ map_Forall (λ _ c, context_in_layout c)
      (trace_contexts (exec (handler p f) st)).
Proof.
  intros (Hev & Hact & Hctx). split_and!.
  - destruct (emits p) eqn:Hp.
    + pose proof (emitting_step p f st Hp) as H.
      destruct (active_requests st !! current_pid_tgid f) as [e|] eqn:E.
      * destruct H as (ev & -> & _ & Hev').
        apply Forall_app. split; [done|]. apply Forall_singleton.
        destruct (Hact _ _ E) as [He _].
        destruct Hev' as [-> | ->];
          [by apply end_event_in_layout | by apply exit_event_in_layout].
      * by rewrite H.
    + by rewrite silent_step.
  - destruct p; cbn [handler].
    + destruct (start_active_cases f st) as [-> | ->]; [done|].
      apply map_Forall_insert_2; [apply start_event_in_layout | done].
    + destruct (active_requests st !! current_pid_tgid f) as [e|] eqn:E.
      * rewrite (end_exec_hit f st e E). cbn [active_requests].
        by apply map_Forall_delete.
      * unfold exec. by rewrite end_exec_miss.
    + destruct (entry_active_cases f st) as [-> | ->]; [done|].
      apply map_Forall_insert_2; [apply entry_event_in_layout | done].
    + destruct (active_requests st !! current_pid_tgid f) as [e|] eqn:E.
      * rewrite (exit_exec_hit f st e E). cbn [active_requests].
        by apply map_Forall_delete.
      * unfold exec. by rewrite exit_exec_miss.
    + unfold exec. by rewrite tcp_sendmsg_exec.
    + done.
  - destruct (step_contexts_cases p f st) as [-> | [-> | (_ & _ & ->)]].
    + done.
    + by apply map_Forall_delete.
    + apply map_Forall_insert_2; [apply start_context_in_layout | done].
Qed.

Lemma run_keeps_layout (calls : list (probe * firing)) :
  ∀ st,
    Forall record_in_layout (http_events st)
    ∧ map_Forall (λ k e, record_in_layout e ∧ keyed_by k e)
        (active_requests st)
    ∧ map_Forall (λ _ c, context_in_layout c) (trace_contexts st) →
    Forall record_in_layout (http_events (run calls st))
    ∧ map_Forall (λ k e, record_in_layout e ∧ keyed_by k e)
        (active_requests (run calls st))
    ∧ map_Forall (λ _ c, context_in_layout c) (trace_contexts (run calls st)).
Proof.
  induction calls as [|[p f] calls IH]; intros st Hst; cbn [run]; [done|].
  apply IH. by apply step_keeps_layout.
Qed.

Lemma empty_tables_layout :
  Forall record_in_layout (http_events bpf_state_empty)
  ∧ map_Forall (λ k e, record_in_layout e ∧ keyed_by k e)
      (active_requests bpf_state_empty)
  ∧ map_Forall (λ _ c, context_in_layout c)
      (trace_contexts bpf_state_empty).
Proof.
  split_and!; [constructor | apply map_Forall_empty | apply map_Forall_empty].
Qed.

(** X8: every record the program hands to user space, in any run from the
    empty tables and whatever the probed arguments were (too long,
    unreadable, NULL), fits [struct http_event]: method, path and
    traceparent have 16, 128 and 55 bytes and end in NUL, and pid, tid,
    status code, duration and content length are in the ranges of their
    C types. *)
Theorem emitted_records_fit_layout (calls : list (probe * firing)) :
  Forall record_in_layout (http_events (run calls bpf_state_empty)).
Proof.
  by destruct (run_keeps_layout calls bpf_state_empty empty_tables_layout)
    as (H & _ & _).
Qed.

(** X9: in any run from the empty tables, every pending record of
    [active_requests] fits [struct http_event] and carries as pid and tid
    the high and low 32 bits of the key it is stored under. *)
Theorem pending_records_carry_their_key (calls : list (probe * firing)) :
  map_Forall (λ k e, record_in_layout e ∧ keyed_by k e)
    (active_requests (run calls bpf_state_empty)).
Proof.
  by destruct (run_keeps_layout calls bpf_state_empty empty_tables_layout)
    as (_ & H & _).
Qed.

(** X10: in any run from the empty tables, every context of
    [trace_contexts] has a 16-byte [trace_id] and an 8-byte [span_id] that
    each end in NUL, and [flags] 0: the program stores character strings
    of at most 15 and 7 bytes, and no probe ever writes [flags]. *)
Theorem stored_contexts_are_short_strings (calls : list (probe * firing)) :
  map_Forall (λ _ c, context_in_layout c)
    (trace_contexts (run calls bpf_state_empty)).
Proof.
  by destruct (run_keeps_layout calls bpf_state_empty empty_tables_layout)
    as (_ & _ & H).
Qed.

(** ** X11: where contexts come from *)

(** X11: [trace_contexts] gains or changes an entry only in an HTTP start
    whose header pointer is not NULL: under every other probe, and under
    a start with a NULL header, every context present afterwards was
    present before, unchanged. *)
Theorem contexts_come_from_http_start (p : probe) (f : firing)
        (st : bpf_state) :
  p ≠ http_handler_start ∨ dx (regs f) = 0 →
  trace_contexts (exec (handler p f) st) ⊆ trace_contexts st.
Proof.
  intros Hnot.
  destruct (step_contexts_cases p f st) as [-> | [-> | (Hp & Hdx & _)]].
  - done.
  - apply delete_subseteq.
  - by destruct Hnot.
Qed.

(** The theorem at a generic entry for the example's id, fired when the
    example's start has stored its context. *)
Lemma contexts_come_from_http_start_witness :
  trace_contexts
    (exec (handler function_entry example_start)
       (run [(http_handler_start, example_start)] bpf_state_empty))
  ⊆ trace_contexts
      (run [(http_handler_start, example_start)] bpf_state_empty).
Proof.
  apply (contexts_come_from_http_start function_entry example_start
           (run [(http_handler_start, example_start)] bpf_state_empty)).
  left. discriminate.
Defined.

(** ** X12: a request that starts and ends leaves the tables as they were *)

(** X12: when neither table holds the id and [active_requests] has room,
    a start followed by its end hands one record to user space and leaves
    both tables exactly as they were before the start. *)
Theorem start_end_restores_tables (st : bpf_state) (fs fe : firing) :
  current_pid_tgid fe = current_pid_tgid fs →
  active_requests st !! current_pid_tgid fs = None →
  trace_contexts st !! current_pid_tgid fs = None →
  Z.of_nat (size (active_requests st)) < 10240 →
  ∃ ev : http_event,
    run [(http_handler_start, fs); (http_handler_end, fe)] st
    = mk_bpf_state (http_events st ++ [ev]) (active_requests st)
        (trace_contexts st).
Proof.
  intros Hid Hnew Hnoctx Hroom. exists (end_event fe (start_event fs)).
  rewrite (start_end_state fs fe st Hid) by (by right).
  by rewrite !delete_id.
Qed.

(** The theorem at the example's start and end from the empty tables. *)
Lemma start_end_restores_tables_witness :
  ∃ ev : http_event,
    run [(http_handler_start, example_start); (http_handler_end, example_end)]
      bpf_state_empty
    = mk_bpf_state (http_events bpf_state_empty ++ [ev])
        (active_requests bpf_state_empty) (trace_contexts bpf_state_empty).
Proof.
  apply (start_end_restores_tables bpf_state_empty example_start
           example_end).
  - reflexivity.
  - reflexivity.
  - reflexivity.
  - vm_compute. reflexivity.
Defined.

(** ** X13: a start for an id that is already pending *)

(** X13: a start for an id that already has a pending record overwrites
    that record in place, also when the table is full: the number of
    records does not change and no record of another id is touched. *)
Theorem restart_takes_no_room (f : firing) (st : bpf_state) :
  is_Some (active_requests st !! current_pid_tgid f) →
  active_requests (exec (trace_http_request_start f) st)
  !! current_pid_tgid f = Some (start_event f)
  ∧ size (active_requests (exec (trace_http_request_start f) st))
    = size (active_requests st)
  ∧ ∀ k, k ≠ current_pid_tgid f →
         active_requests (exec (trace_http_request_start f) st) !! k
         = active_requests st !! k.
Proof.
  intros Hin. rewrite start_stores_event by (by left). split_and!.
  - apply lookup_insert_eq.
  - by apply map_size_insert_Some.
  - intros k Hk. by rewrite lookup_insert_ne.
Qed.

(** The theorem at a second start for the example's id, fired when the
    example's start is pending. *)
Lemma restart_takes_no_room_witness :
  active_requests
    (exec (trace_http_request_start second_start)
       (run [(http_handler_start, example_start)] bpf_state_empty))
  !! current_pid_tgid second_start = Some (start_event second_start)
  ∧ size (active_requests
            (exec (trace_http_request_start second_start)
               (run [(http_handler_start, example_start)] bpf_state_empty)))
    = size (active_requests
              (run [(http_handler_start, example_start)] bpf_state_empty))
  ∧ ∀ k, k ≠ current_pid_tgid second_start →
         active_requests
           (exec (trace_http_request_start second_start)
              (run [(http_handler_start, example_start)] bpf_state_empty))
         !! k
         = active_requests
             (run [(http_handler_start, example_start)] bpf_state_empty)
           !! k.
Proof.
  apply (restart_takes_no_room second_start
           (run [(http_handler_start, example_start)] bpf_state_empty)).
  eexists. vm_compute. reflexivity.
Defined.

(** ** X14: the status code and the content length *)

Lemma end_event_content_length (f : firing) (e : http_event) :
  content_length (end_event f e)
  = if decide (si (regs f) ≠ 0)
    then (Helper.bpf_probe_read_kernel_u32 (kernel_memory f)
            (si (regs f))).1
    else content_length e.
Proof. unfold end_event. by case_decide. Qed.

(** X14: for a start that found room and the end that matches it, the
    emitted status code is the low 16 bits of the end's first argument.
    The content length is 0 when the end's second argument is NULL; when
    it is not NULL it is the 32-bit value of the four bytes it points to in
    kernel memory, least significant first, and 0 when any of the four
    is unreadable. *)
Theorem end_reads_status_and_length (st : bpf_state) (fs fe : firing)
        (mid : list (probe * firing)) :
  let id := current_pid_tgid fs in
  let before_end := (http_handler_start, fs) :: mid in
  let ptr := si (regs fe) in
  let km := kernel_memory fe in
  current_pid_tgid fe = id →
  Forall (λ c, current_pid_tgid c.2 ≠ id) mid →
  is_Some (active_requests st !! id)
  ∨ Z.of_nat (size (active_requests st)) < 10240 →
  ∃ ev : http_event,
    http_events (run (before_end ++ [(http_handler_end, fe)]) st)
    = http_events (run before_end st) ++ [ev]
    ∧ status_code ev = (di (regs fe)) mod 2 ^ 16
    ∧ (ptr = 0 → content_length ev = 0)
    ∧ (ptr ≠ 0 →
       km ptr = None ∨ km (ptr + 1) = None ∨ km (ptr + 2) = None
       ∨ km (ptr + 3) = None →
       content_length ev = 0)
    ∧ (∀ b0 b1 b2 b3,
         ptr ≠ 0 →
         km ptr = Some b0 → km (ptr + 1) = Some b1 →
         km (ptr + 2) = Some b2 → km (ptr + 3) = Some b3 →
         content_length ev
         = (b0 + 2 ^ 8 * b1 + 2 ^ 16 * b2 + 2 ^ 24 * b3) mod 2 ^ 32).
Proof.
  intros id before_end ptr km Hfe Hmid Hroom.
  exists (end_event fe (start_event fs)).
  unfold before_end. rewrite <- app_comm_cons.
  rewrite (start_others_end st fs fe mid Hfe Hmid Hroom). cbn [http_events].
  destruct (end_event_fields fe (start_event fs))
    as (_ & _ & _ & _ & _ & _ & _ & Hstatus).
  destruct (start_event_scalars fs) as (_ & _ & _ & _ & _ & Hcl0).
  rewrite Hstatus, end_event_content_length, Hcl0. fold ptr km.
  split_and!; try done.
  - intros Hnull. by rewrite decide_False by (by intros ?).
  - intros Hptr Hfault. rewrite decide_True by done.
    unfold Helper.bpf_probe_read_kernel_u32.
    destruct (km ptr), (km (ptr + 1)), (km (ptr + 2)), (km (ptr + 3));
      try done; by destruct Hfault as [?|[?|[?|?]]].
  - intros b0 b1 b2 b3 Hptr H0 H1 H2 H3. rewrite decide_True by done.
    unfold Helper.bpf_probe_read_kernel_u32.
    by rewrite H0, H1, H2, H3.
Qed.

(** The theorem at the example's start and end: status 200, and the bytes
    0, 2, 0, 0 at kernel address 7000, that is 512. *)
Lemma end_reads_status_and_length_witness :
  ∃ ev : http_event,
    http_events
      (run (((http_handler_start, example_start) :: [])
            ++ [(http_handler_end, example_end)]) bpf_state_empty)
    = http_events
        (run ((http_handler_start, example_start) :: []) bpf_state_empty)
      ++ [ev]
    ∧ status_code ev = 200 mod 2 ^ 16
    ∧ (7000 = 0 → content_length ev = 0)
    ∧ (7000 ≠ 0 →
       kernel_memory example_end 7000 = None
       ∨ kernel_memory example_end (7000 + 1) = None
       ∨ kernel_memory example_end (7000 + 2) = None
       ∨ kernel_memory example_end (7000 + 3) = None →
       content_length ev = 0)
    ∧ (∀ b0 b1 b2 b3,
         7000 ≠ 0 →
         kernel_memory example_end 7000 = Some b0 →
         kernel_memory example_end (7000 + 1) = Some b1 →
         kernel_memory example_end (7000 + 2) = Some b2 →
         kernel_memory example_end (7000 + 3) = Some b3 →
         content_length ev
         = (b0 + 2 ^ 8 * b1 + 2 ^ 16 * b2 + 2 ^ 24 * b3) mod 2 ^ 32).
Proof.
  apply (end_reads_status_and_length bpf_state_empty example_start
           example_end []).
  - reflexivity.
  - constructor.
  - right. vm_compute. reflexivity.
Defined.

(** ** X15: arguments that cannot be read *)

Lemma read_str_fault (m : memory) (p : Z) (size : nat) :
  (0 < size)%nat → m p = None →
  (Helper.bpf_probe_read_str m (zeroed size) size p).1 = zeroed size.
Proof.
  intros Hsize Hp. unfold Helper.bpf_probe_read_str.
  destruct size as [|n]; [lia|]. cbn [Helper.strncpy_nofault].
  rewrite Hp. cbn [fst]. unfold zeroed. rewrite drop_replicate.
  replace (S n - S n)%nat with 0%nat by lia. apply app_nil_r.
Qed.

(** X15: a start whose method, path or header pointer leads to unreadable
    memory (a NULL method or path pointer included, where address 0 is
    unreadable) is still recorded when there is room, and its end still
    emits the record, with the corresponding field all NUL. *)
Theorem unreadable_arguments_give_empty_fields (st : bpf_state)
        (fs fe : firing) :
  let id := current_pid_tgid fs in
  let um := user_memory fs in
  current_pid_tgid fe = id →
  is_Some (active_requests st !! id)
  ∨ Z.of_nat (size (active_requests st)) < 10240 →
  ∃ ev : http_event,
    http_events
      (run [(http_handler_start, fs); (http_handler_end, fe)] st)
    = http_events st ++ [ev]
    ∧ timestamp_ns ev = ktime_ns fs
    ∧ (um (di (regs fs)) = None → method ev = zeroed MAX_METHOD_LEN)
    ∧ (um (si (regs fs)) = None → path ev = zeroed MAX_PATH_LEN)
    ∧ (um (dx (regs fs)) = None → traceparent ev = zeroed TRACEPARENT_LEN).
Proof.
  intros id um Hfe Hroom. exists (end_event fe (start_event fs)).
  rewrite (start_end_state fs fe st Hfe Hroom). cbn [http_events].
  destruct (end_event_fields fe (start_event fs))
    as (Hts & _ & _ & Hm & Hp & Htp & _).
  destruct (start_event_scalars fs) as (Hts0 & _).
  rewrite Hts, Hm, Hp, Htp, Hts0.
  rewrite start_event_method, start_event_path, start_event_traceparent.
  split_and!; try done.
  - intros Hfault. apply read_str_fault; [|done].
    unfold MAX_METHOD_LEN. lia.
  - intros Hfault. apply read_str_fault; [|done].
    unfold MAX_PATH_LEN. lia.
  - intros Hfault. case_decide; [|done].
    apply read_str_fault; [|done]. unfold TRACEPARENT_LEN. lia.
Qed.

(** The theorem at a start whose three pointers lead to unreadable
    memory, from the empty tables. *)
Lemma unreadable_arguments_give_empty_fields_witness :
  ∃ ev : http_event,
    http_events
      (run [(http_handler_start, unreadable_start);
            (http_handler_end, example_end)] bpf_state_empty)
    = http_events bpf_state_empty ++ [ev]
    ∧ timestamp_ns ev = 100
    ∧ (user_memory unreadable_start (di (regs unreadable_start)) = None →
       method ev = zeroed MAX_METHOD_LEN)
    ∧ (user_memory unreadable_start (si (regs unreadable_start)) = None →
       path ev = zeroed MAX_PATH_LEN)
    ∧ (user_memory unreadable_start (dx (regs unreadable_start)) = None →
       traceparent ev = zeroed TRACEPARENT_LEN).
Proof.
  apply (unreadable_arguments_give_empty_fields bpf_state_empty
           unreadable_start example_end).
  - reflexivity.
  - right. vm_compute. reflexivity.
Defined.

(** ** X16: firing a start twice *)





(** ** X17, X18: what [parse_traceparent] writes *)

(** A string read into an array of [size] bytes leaves a NUL in it,
    whatever the array held. *)
Lemma read_str_has_nul (m : memory) (dst : list Z) (p : Z) (size : nat) :
  (0 < size)%nat →
  0 ∈ (Helper.bpf_probe_read_str m dst size p).1.
Proof.
  intros Hsize. unfold Helper.bpf_probe_read_str.
  destruct (Helper.strncpy_nofault m p size) as [bs|] eqn:E; cbn [fst].
  - pose proof (strncpy_nofault_nonempty m p size bs Hsize E) as Hne.
    unfold Helper.nul_terminate. destruct bs as [|b bs]; [done|].
    apply elem_of_app. left. apply elem_of_app. right.
    apply elem_of_cons. by left.
  - apply elem_of_app. left. destruct size as [|n]; [lia|].
    unfold zeroed. simpl. apply elem_of_cons. by left.
Qed.

(** X17: with a NULL header or a NULL context [parse_traceparent] returns
    -1 and writes nothing.  Otherwise it returns 0 and, for any header
    object, writes only into [trace_id] and [span_id]: both keep their 16
    and 8 bytes and hold a NUL afterwards, and [flags] keeps the value it
    had. *)
Theorem parse_traceparent_keeps_shape (hdr : list Z) (c : trace_context) :
  length (trace_id c) = 16%nat →
  length (span_id c) = 8%nat →
  parse_traceparent None (Some c) = (-1, Some c)
  ∧ parse_traceparent (Some hdr) None = (-1, None)
  ∧ ∃ c' : trace_context,
      parse_traceparent (Some hdr) (Some c) = (0, Some c')
      ∧ length (trace_id c') = 16%nat
      ∧ length (span_id c') = 8%nat
      ∧ 0 ∈ trace_id c'
      ∧ 0 ∈ span_id c'
      ∧ flags c' = flags c.
Proof.
  intros Htrace Hspan. split_and!; [done | done |].
  unfold parse_traceparent. eexists. split; [reflexivity|].
  cbn [set_span_id set_trace_id trace_id span_id flags].
  split_and!; try done.
  - by apply bpf_probe_read_str_length.
  - by apply bpf_probe_read_str_length.
  - apply read_str_has_nul. lia.
  - apply read_str_has_nul. lia.
Qed.

(** The theorem at the example header and the zeroed context. *)
Lemma parse_traceparent_keeps_shape_witness :
  parse_traceparent None (Some trace_context_zero)
  = (-1, Some trace_context_zero)
  ∧ parse_traceparent (Some (bytes_of example_header)) None = (-1, None)
  ∧ ∃ c' : trace_context,
      parse_traceparent (Some (bytes_of example_header))
        (Some trace_context_zero) = (0, Some c')
      ∧ length (trace_id c') = 16%nat
      ∧ length (span_id c') = 8%nat
      ∧ 0 ∈ trace_id c'
      ∧ 0 ∈ span_id c'
      ∧ flags c' = flags trace_context_zero.
Proof.
  apply (parse_traceparent_keeps_shape (bytes_of example_header)
           trace_context_zero).
  - reflexivity.
  - reflexivity.
Defined.

(** The copy loop over an object that holds no NUL in the bytes asked
    for. *)
Lemma strncpy_object (hdr : list Z) (n : nat) :
  ∀ p : nat,
    (p + n ≤ length hdr)%nat →
    Forall (λ b, b ≠ 0) (take n (drop p hdr)) →
    Helper.strncpy_nofault (object_memory hdr) (Z.of_nat p) n
    = Some (take n (drop p hdr)).
Proof.
  induction n as [|n IH]; intros p Hlen Hnz.
  - by rewrite take_0.
  - destruct (lookup_lt_is_Some_2 hdr p) as [b Hb]; [lia|].
    rewrite (drop_S _ _ _ Hb) in Hnz |- *. rewrite firstn_cons in Hnz |- *.
    apply Forall_cons in Hnz as [Hb0 Hnz].
    cbn [Helper.strncpy_nofault]. unfold object_memory at 1.
    rewrite decide_True by lia. rewrite Nat2Z.id, Hb.
    rewrite decide_False by done.
    replace (Z.of_nat p + 1) with (Z.of_nat (S p)) by lia.
    rewrite (IH (S p)); [done | lia | done].
Qed.

(** X18: for a header object of at least 44 bytes with no NUL among the
    16 bytes from offset 3 and the 8 bytes from offset 36,
    [parse_traceparent] leaves in [trace_id] the 15 bytes of the header
    from offset 3 followed by a NUL, and in [span_id] the 7 bytes from
    offset 36 followed by a NUL: the header's characters, as they are. *)
Theorem parse_traceparent_copies_prefixes (hdr : list Z)
        (c : trace_context) :
  length (trace_id c) = 16%nat →
  length (span_id c) = 8%nat →
  (44 ≤ length hdr)%nat →
  Forall (λ b, b ≠ 0) (take 16 (drop 3 hdr)) →
  Forall (λ b, b ≠ 0) (take 8 (drop 36 hdr)) →
  (parse_traceparent (Some hdr) (Some c)).2
  = Some {| trace_id := take 15 (drop 3 hdr) ++ [0];
            span_id := take 7 (drop 36 hdr) ++ [0];
            flags := flags c |}.
Proof.
  intros Htrace Hspan Hlen Hnz1 Hnz2.
  unfold parse_traceparent. cbn [snd]. f_equal.
  unfold set_span_id, set_trace_id. cbn [trace_id span_id flags].
  unfold Helper.bpf_probe_read_str.
  pose proof (strncpy_object hdr 16 3 ltac:(lia) Hnz1) as H1.
  pose proof (strncpy_object hdr 8 36 ltac:(lia) Hnz2) as H2.
  change (Z.of_nat 3) with 3 in H1. change (Z.of_nat 36) with 36 in H2.
  rewrite H1, H2.
  cbn [fst]. rewrite !length_take, !length_drop.
  replace (16 `min` (length hdr - 3))%nat with 16%nat by lia.
  replace (8 `min` (length hdr - 36))%nat with 8%nat by lia.
  rewrite (drop_ge (trace_id c)) by lia.
  rewrite (drop_ge (span_id c)) by lia.
  rewrite !app_nil_r.
  assert (∀ (n : nat) (l : list Z),
            length l = S n →
            Helper.nul_terminate l = take n l ++ [0]) as Hterm.
  { intros n l Hl. destruct l as [|b l]; [done|].
    unfold Helper.nul_terminate. rewrite Hl.
    by replace (S n - 1)%nat with n by lia. }
  rewrite (Hterm 15%nat), (Hterm 7%nat).
  - rewrite !take_take. done.
  - rewrite length_take, length_drop. lia.
  - rewrite length_take, length_drop. lia.
Qed.

(** The theorem at the example header. *)
Lemma parse_traceparent_copies_prefixes_witness :
  (parse_traceparent (Some (bytes_of example_header))
     (Some trace_context_zero)).2
  = Some {| trace_id := take 15 (drop 3 (bytes_of example_header)) ++ [0];
            span_id := take 7 (drop 36 (bytes_of example_header)) ++ [0];
            flags := flags trace_context_zero |}.
Proof.
  apply (parse_traceparent_copies_prefixes (bytes_of example_header)
           trace_context_zero).
  - reflexivity.
  - reflexivity.
  - vm_compute. lia.
  - vm_compute. repeat constructor; discriminate.
  - vm_compute. repeat constructor; discriminate.
Defined.

(** ** X19: arguments longer than their arrays *)

(** X19: a start that found room and its end, where method, path and
    header are C strings of at least 16, 128 and 55 bytes: nothing is
    rejected, and the emitted record holds the first 15, 127 and 54 bytes
    of each followed by a NUL. *)
Theorem long_arguments_are_cut (st : bpf_state) (fs fe : firing)
        (meth pth hdr : list Z) :
  let id := current_pid_tgid fs in
  current_pid_tgid fe = id →
  is_Some (active_requests st !! id)
  ∨ Z.of_nat (size (active_requests st)) < 10240 →
  cstring_at (user_memory fs) (di (regs fs)) meth →
  cstring_at (user_memory fs) (si (regs fs)) pth →
  dx (regs fs) ≠ 0 →
  cstring_at (user_memory fs) (dx (regs fs)) hdr →
  (MAX_METHOD_LEN ≤ length meth)%nat →
  (MAX_PATH_LEN ≤ length pth)%nat →
  (TRACEPARENT_LEN ≤ length hdr)%nat →
  ∃ ev : http_event,
    http_events
      (run [(http_handler_start, fs); (http_handler_end, fe)] st)
    = http_events st ++ [ev]
    ∧ method ev = take 15 meth ++ [0]
    ∧ path ev = take 127 pth ++ [0]
    ∧ traceparent ev = take 54 hdr ++ [0].
Proof.
  intros id Hfe Hroom Hmeth Hpth Hdx Hhdr Hlm Hlp Hlh.
  exists (end_event fe (start_event fs)).
  rewrite (start_end_state fs fe st Hfe Hroom). cbn [http_events].
  destruct (end_event_fields fe (start_event fs))
    as (_ & _ & _ & Hm & Hp & Htp & _).
  rewrite Hm, Hp, Htp.
  rewrite start_event_method, start_event_path, start_event_traceparent.
  rewrite decide_True by done.
  rewrite (read_cstring _ _ meth), (read_cstring _ _ pth),
    (read_cstring _ _ hdr);
    try done; try (unfold MAX_METHOD_LEN, MAX_PATH_LEN, TRACEPARENT_LEN; lia).
  rewrite !c_buffer_long
    by (unfold MAX_METHOD_LEN, MAX_PATH_LEN, TRACEPARENT_LEN in *; lia).
  done.
Qed.

(** The theorem at a start with a 25-byte method, a path of more than
    127 bytes and the 55-character example header. *)
Lemma long_arguments_are_cut_witness :
  ∃ ev : http_event,
    http_events
      (run [(http_handler_start, long_start); (http_handler_end, example_end)]
         bpf_state_empty)
    = http_events bpf_state_empty ++ [ev]
    ∧ method ev = take 15 (bytes_of "PROPPATCH-EXTENDED-METHOD") ++ [0]
    ∧ path ev
      = take 127
          (bytes_of
             "/api/v1/subscribers/imsi-001010000000001/sessions/5/policies/qos-flows/9/usage-reports/2024-06/monthly-aggregate-summary/details")
        ++ [0]
    ∧ traceparent ev = take 54 (bytes_of example_header) ++ [0].
Proof.
  apply (long_arguments_are_cut bpf_state_empty long_start example_end
           (bytes_of "PROPPATCH-EXTENDED-METHOD")
           (bytes_of
              "/api/v1/subscribers/imsi-001010000000001/sessions/5/policies/qos-flows/9/usage-reports/2024-06/monthly-aggregate-summary/details")
           (bytes_of example_header)).
  - reflexivity.
  - right. vm_compute. reflexivity.
  - vm_compute. repeat split; discriminate.
  - vm_compute. repeat split; discriminate.
  - simpl. lia.
  - vm_compute. repeat split; discriminate.
  - vm_compute. lia.
  - vm_compute. lia.
  - vm_compute. lia.
Defined.

(** ** X20: probes of other ids *)

(** X20: over any run of probes fired for ids other than [id], from any
    state, the pending record and the context stored for [id] are what
    they were. *)
Theorem other_ids_are_untouched (calls : list (probe * firing)) (id : Z)
        (st : bpf_state) :
  Forall (λ c, current_pid_tgid c.2 ≠ id) calls →
  active_requests (run calls st) !! id = active_requests st !! id
  ∧ trace_contexts (run calls st) !! id = trace_contexts st !! id.
Proof. intros Hcalls. by apply run_other_ids. Qed.

(** The theorem at a request and a generic entry and exit on another id,
    run after the example's start. *)
Lemma other_ids_are_untouched_witness :
  active_requests
    (run [(http_handler_start, other_start); (function_entry, other_entry);
          (function_exit, other_exit); (http_handler_end, other_end)]
       (run [(http_handler_start, example_start)] bpf_state_empty))
  !! 0x1000000A
  = active_requests
      (run [(http_handler_start, example_start)] bpf_state_empty)
    !! 0x1000000A
  ∧ trace_contexts
      (run [(http_handler_start, other_start); (function_entry, other_entry);
            (function_exit, other_exit); (http_handler_end, other_end)]
         (run [(http_handler_start, example_start)] bpf_state_empty))
    !! 0x1000000A
    = trace_contexts
        (run [(http_handler_start, example_start)] bpf_state_empty)
      !! 0x1000000A.
Proof.
  apply (other_ids_are_untouched
           [(http_handler_start, other_start); (function_entry, other_entry);
            (function_exit, other_exit); (http_handler_end, other_end)]
           0x1000000A
           (run [(http_handler_start, example_start)] bpf_state_empty)).
  repeat constructor; simpl; lia.
Defined.

(** ** X21: the table takes [max_entries] ids *)

(** X21: generic entries for up to 10240 distinct ids, fired on the empty
    tables, are all recorded: [active_requests] ends with as many records
    as there were ids, nothing is emitted and [trace_contexts] stays
    empty. *)
Theorem table_takes_max_entries_ids (ks : list Z) :
  NoDup ks →
  Z.of_nat (length ks) <= 10240 →
  Z.of_nat (size (active_requests (run (entries ks) bpf_state_empty)))
  = Z.of_nat (length ks)
  ∧ http_events (run (entries ks) bpf_state_empty) = []
  ∧ trace_contexts (run (entries ks) bpf_state_empty) = ∅.
Proof.
  intros Hnodup Hlen.
  destruct (run_entries ks bpf_state_empty Hnodup)
    as (Hev & Hctx & Hsize & _).
  - intros k _. apply lookup_empty.
  - cbn [active_requests bpf_state_empty]. rewrite map_size_empty.
    cbn [max_entries active_requests_map]. lia.
  - rewrite Hev, Hctx, Hsize. cbn [active_requests bpf_state_empty].
    rewrite map_size_empty. split_and!; [lia | done | done].
Qed.

(** The theorem at the ids 1 to 10240. *)
Lemma table_takes_max_entries_ids_witness :
  Z.of_nat
    (size (active_requests (run (entries (seqZ 1 10240)) bpf_state_empty)))
  = Z.of_nat (length (seqZ 1 10240))
  ∧ http_events (run (entries (seqZ 1 10240)) bpf_state_empty) = []
  ∧ trace_contexts (run (entries (seqZ 1 10240)) bpf_state_empty) = ∅.
Proof.
  apply (table_takes_max_entries_ids (seqZ 1 10240)).
  - apply NoDup_seqZ.
  - rewrite length_seqZ. reflexivity.
Defined.
